(** * Goalt: the conversation handlers and the streak engine of [app.js]

    A shallow embedding of the goal-tracking chatbot.  The two Mongo
    collections ([models.User], [gmodels.Goal]) and the messages handed to
    the Send API make up the state; every handler is a computation over
    that state.  The store applies the operations in the order they are
    issued, and a callback runs once the store has answered, after the
    callbacks of the operations issued before its own.

    Conventions of the embedding:
    - a document carries every field the handlers read or write, whether
      or not the mongoose schema declares it;
    - JavaScript numbers are integers ([Z]) except [lastUpdate], which
      [nameGoal] stores as a quotient and is therefore a rational ([Q]);
      the integers are those a JavaScript number holds exactly, of
      magnitude below 2^53, which [String] writes in plain digits;
    - a string is held in UTF-8, as [fire] is.  [JS.length] counts its
      UTF-16 code units, which is what [.length] measures.  [substring],
      [charAt] and [slice] index the bytes; bytes and code units agree
      up to the first character outside ASCII, and the tags the handlers
      cut off payloads and statuses are ASCII.  Case mapping acts on the
      ASCII letters, so what is stated about the text a handler stores
      is stated for ASCII text;
    - [new Date()], the id mongoose gives a saved document, the error
      flag of [Goal.remove] and the content of the motivation feed come
      from the environment ([Env]);
    - reading a property of [null] raises a [TypeError], which ends the
      handler and leaves the store as it was at that point. *)

From Stdlib Require Import ZArith QArith Bool List String Ascii Lia.
From Stdlib Require Import DecimalString.
Import ListNotations.

Close Scope Q_scope.
Open Scope string_scope.
Open Scope Z_scope.

(** ** JavaScript primitives *)

Module JS.

(** [String(n)] for an integer a number holds exactly, of magnitude
    below 2^53: its decimal digits. *)
Definition String (n : Z) : string := NilZero.string_of_int (Z.to_int n).

(** [s.length]: the UTF-16 code units of a string held in UTF-8.  A
    character of one, two or three bytes is one unit and a character of
    four bytes is two, a surrogate pair: the byte that opens it counts
    for one and the byte after that for the other.  The remaining
    continuation bytes count for nothing. *)
Fixpoint lengthFrom (astral : bool) (s : string) : nat :=
  match s with
  | EmptyString => 0%nat
  | String.String c s' =>
      let n := nat_of_ascii c in
      if (n <? 128)%nat then S (lengthFrom false s')
      else if (n <? 192)%nat
      then ((if astral then 1 else 0) + lengthFrom false s')%nat
      else if (n <? 240)%nat then S (lengthFrom false s')
      else S (lengthFrom true s')
  end.

Definition length (s : string) : nat := lengthFrom false s.

(** Every character is an ASCII character. *)
Fixpoint isAscii (s : string) : bool :=
  match s with
  | EmptyString => true
  | String.String c s' => (nat_of_ascii c <? 128)%nat && isAscii s'
  end.

(** [s.substring(a, b)]: the bytes from [min a b] up to [max a b],
    clamped to the string. *)
Definition substring (a b : nat) (s : string) : string :=
  String.substring (Nat.min a b) (Nat.max a b - Nat.min a b) s.

(** [s.charAt(i)]: a string of one byte, or the empty string. *)
Definition charAt (i : nat) (s : string) : string :=
  String.substring i 1 s.

(** [s.slice(i)] for a non-negative [i]. *)
Definition slice (i : nat) (s : string) : string :=
  String.substring i (String.length s - i) s.

(** [s.toUpperCase()] and [s.toLowerCase()] as they act on ASCII text:
    the ASCII letters are mapped, every other byte is kept. *)
Definition upper (c : ascii) : ascii :=
  let n := nat_of_ascii c in
  if (97 <=? n)%nat && (n <=? 122)%nat then ascii_of_nat (n - 32) else c.

Definition lower (c : ascii) : ascii :=
  let n := nat_of_ascii c in
  if (65 <=? n)%nat && (n <=? 90)%nat then ascii_of_nat (n + 32) else c.

Fixpoint map_units (f : ascii -> ascii) (s : string) : string :=
  match s with
  | EmptyString => EmptyString
  | String.String c s' => String.String (f c) (map_units f s')
  end.

Definition toUpperCase : string -> string := map_units upper.
Definition toLowerCase : string -> string := map_units lower.

(** [s.includes(sub)]. *)
Fixpoint includes (sub s : string) : bool :=
  String.prefix sub s ||
  match s with
  | EmptyString => false
  | String.String _ s' => includes sub s'
  end.

(** [a < b] on rationals, as a boolean. *)
Definition Qltb (a b : Q) : bool := negb (Qle_bool b a).

(** A value that may be [undefined]; [i < undefined] is [false]. *)
Definition lt_undef (i : Z) (bound : option Z) : bool :=
  match bound with
  | Some n => i <? n
  | None => false
  end.

End JS.

(** ** Documents *)

(** [new Date()]. *)
Record Date := mkDate {
  getTime : Z;   (* milliseconds since the epoch *)
  getDay : Z;    (* day of the week, 0..6 *)
  getMonth : Z;  (* 0..11 *)
  getDate : Z    (* day of the month *)
}.

(** A document of [models.User].  [u_log] is the field the finish path
writes on a user document. *)
Record UserDoc := mkUser {
  u_id : string;
  u_name : Z;
  u_status : string;
  u_numGoals : Z;
  u_finished : list string;
  u_lastPicTime : Z;
  u_log : option (list string)
}.

(** A document of [gmodels.Goal]. *)
Record GoalDoc := mkGoal {
  g_id : string;
  g_user : Z;
  g_name : string;
  g_streak : Z;
  g_log : list string;
  g_lastUpdate : Q;
  g_lastDay : Z;
  g_total : Z
}.

(** [$set] on single fields. *)
Definition set_status (v : string) (u : UserDoc) : UserDoc :=
  mkUser (u_id u) (u_name u) v (u_numGoals u) (u_finished u)
         (u_lastPicTime u) (u_log u).
Definition set_numGoals (v : Z) (u : UserDoc) : UserDoc :=
  mkUser (u_id u) (u_name u) (u_status u) v (u_finished u)
         (u_lastPicTime u) (u_log u).
Definition set_lastPicTime (v : Z) (u : UserDoc) : UserDoc :=
  mkUser (u_id u) (u_name u) (u_status u) (u_numGoals u) (u_finished u)
         v (u_log u).
Definition set_u_log (v : list string) (u : UserDoc) : UserDoc :=
  mkUser (u_id u) (u_name u) (u_status u) (u_numGoals u) (u_finished u)
         (u_lastPicTime u) (Some v).

Definition set_streak (v : Z) (g : GoalDoc) : GoalDoc :=
  mkGoal (g_id g) (g_user g) (g_name g) v (g_log g)
         (g_lastUpdate g) (g_lastDay g) (g_total g).
Definition set_g_log (v : list string) (g : GoalDoc) : GoalDoc :=
  mkGoal (g_id g) (g_user g) (g_name g) (g_streak g) v
         (g_lastUpdate g) (g_lastDay g) (g_total g).
(** [$set:{streak, lastUpdate, lastDay, total}]. *)
Definition set_progress (s : Z) (lu : Q) (ld t : Z) (g : GoalDoc) : GoalDoc :=
  mkGoal (g_id g) (g_user g) (g_name g) s (g_log g) lu ld t.

(** ** Collections *)

Module Coll.
Section Ops.
Context {A : Type}.

(** [findOne]: the first document that matches, or [null]. *)
Definition findOne (p : A -> bool) (c : list A) : option A := List.find p c.

(** [find]: every document that matches, in store order. *)
Definition find (p : A -> bool) (c : list A) : list A := List.filter p c.

(** [update] without [multi]: the first match is modified. *)
Fixpoint update (p : A -> bool) (f : A -> A) (c : list A) : list A :=
  match c with
  | [] => []
  | x :: c' => if p x then f x :: c' else x :: update p f c'
  end.

(** [remove]: every match is deleted; matching nothing is not an
    error. *)
Definition remove (p : A -> bool) (c : list A) : list A :=
  List.filter (fun x => negb (p x)) c.

(** [save] of a new document. *)
Definition save (x : A) (c : list A) : list A := c ++ [x].
End Ops.
End Coll.

Definition byName (senderID : Z) (u : UserDoc) : bool := u_name u =? senderID.
Definition byUserId (id : string) (u : UserDoc) : bool := String.eqb (u_id u) id.
Definition byId (id : string) (g : GoalDoc) : bool := String.eqb (g_id g) id.
Definition byOwner (senderID : Z) (g : GoalDoc) : bool := g_user g =? senderID.
Definition byOwnerName (senderID : Z) (nm : string) (g : GoalDoc) : bool :=
  (g_user g =? senderID) && String.eqb (g_name g) nm.

(** ** The environment of a handler run *)

(** A post of the motivation feed, as [sendMotivation] keeps it. *)
Record Image := mkImage {
  url : string;
  title : string
}.

Record Env := mkEnv {
  now : Date;           (* [new Date()] at the start of a function *)
  later : Date;         (* [new Date()] inside [streak], read in the callback *)
  freshId : string;     (* [_id] given to a document saved in this run *)
  removeErr : bool;     (* [err] handed to the callback of [Goal.remove] *)
  images : list Image   (* the feed, filtered by flair and score, sorted *)
}.

(** ** Replies handed to the Send API *)

Inductive Reply :=
| TextMessage (recipientId : Z) (messageText : string)
| HomeMessage (recipientId : Z) (messageText : string)
| Home (recipientId : Z)
| ImageMessage (recipientId : Z) (image_url : option string)
| GenericMessage (recipientId : Z)
| Test (senderID : Z)
| GoalCard (senderID : Z) (goal : GoalDoc)
| GoalList (senderID : Z) (result : list GoalDoc) (type : string)
           (finishedOption : bool)
| LogsPage (senderID : Z) (goal : GoalDoc) (index : string)
| Confirm (senderID : Z) (id : string) (name : string)
| ConfirmFinish (senderID : Z) (id : string) (name : string).

(** ** State and the handler monad *)

Record World := mkWorld {
  users : list UserDoc;
  goals : list GoalDoc;
  sent : list Reply
}.

Inductive Failure := TypeError | Hang.

Inductive outcome (A : Type) :=
| Done (a : A) (w : World)
| Abort (e : Failure) (w : World).
Arguments Done {A} a w.
Arguments Abort {A} e w.

Definition M (A : Type) : Type := World -> outcome A.

Definition ret {A} (a : A) : M A := fun w => Done a w.

Definition bind {A B} (m : M A) (k : A -> M B) : M B :=
  fun w => match m w with
           | Done a w' => k a w'
           | Abort e w' => Abort e w'
           end.

Declare Scope handler_scope.
Delimit Scope handler_scope with handler.
Notation "x <- m ;; k" := (bind m (fun x => k))
  (at level 61, m at next level, right associativity) : handler_scope.
Notation "m ;; k" := (bind m (fun _ => k))
  (at level 61, right associativity) : handler_scope.
Open Scope handler_scope.

Definition throw {A} (e : Failure) : M A := fun w => Abort e w.

(** Reading a property of a query result: [null] raises. *)
Definition deref {A} (r : option A) : M A :=
  match r with
  | Some a => ret a
  | None => throw TypeError
  end.

Module User.
Definition findOne (senderID : Z) : M (option UserDoc) :=
  fun w => Done (Coll.findOne (byName senderID) (users w)) w.
Definition update (senderID : Z) (f : UserDoc -> UserDoc) : M unit :=
  fun w => Done tt (mkWorld (Coll.update (byName senderID) f (users w))
                            (goals w) (sent w)).
Definition updateById (id : string) (f : UserDoc -> UserDoc) : M unit :=
  fun w => Done tt (mkWorld (Coll.update (byUserId id) f (users w))
                            (goals w) (sent w)).
Definition save (u : UserDoc) : M unit :=
  fun w => Done tt (mkWorld (Coll.save u (users w)) (goals w) (sent w)).
End User.

Module Goals.
Definition findOne (id : string) : M (option GoalDoc) :=
  fun w => Done (Coll.findOne (byId id) (goals w)) w.
Definition findOneNamed (senderID : Z) (nm : string) : M (option GoalDoc) :=
  fun w => Done (Coll.findOne (byOwnerName senderID nm) (goals w)) w.
Definition find (senderID : Z) : M (list GoalDoc) :=
  fun w => Done (Coll.find (byOwner senderID) (goals w)) w.
Definition update (id : string) (f : GoalDoc -> GoalDoc) : M unit :=
  fun w => Done tt (mkWorld (users w) (Coll.update (byId id) f (goals w))
                            (sent w)).
(** The callback receives [err]; a store that fails deletes nothing. *)
Definition remove (env : Env) (id : string) : M bool :=
  fun w => if removeErr env then Done true w
           else Done false (mkWorld (users w)
                                    (Coll.remove (byId id) (goals w))
                                    (sent w)).
Definition save (g : GoalDoc) : M unit :=
  fun w => Done tt (mkWorld (users w) (Coll.save g (goals w)) (sent w)).
End Goals.

Definition callSendAPI (r : Reply) : M unit :=
  fun w => Done tt (mkWorld (users w) (goals w) (sent w ++ [r])).

Definition sendTextMessage (recipientId : Z) (messageText : string) : M unit :=
  callSendAPI (TextMessage recipientId messageText).
Definition sendHomeMessage (recipientId : Z) (messageText : string) : M unit :=
  callSendAPI (HomeMessage recipientId messageText).
Definition sendHome (recipientId : Z) : M unit :=
  callSendAPI (Home recipientId).
Definition sendImageMessage (recipientId : Z) (image_url : option string)
  : M unit :=
  callSendAPI (ImageMessage recipientId image_url).
Definition sendGenericMessage (recipientId : Z) : M unit :=
  callSendAPI (GenericMessage recipientId).
Definition sendTest (senderID : Z) : M unit :=
  callSendAPI (Test senderID).

(** ** Streak engine *)

(** [streak(senderID, goal)]: the decision, from the clock read inside
    the function and the goal's stored day and timestamp. *)
Definition streak (env : Env) (goal : GoalDoc) : string :=
  let d := later env in
  let time := getTime d in
  let day := getDay d in
  let diffDay := day - g_lastDay goal in
  let diffTime := ((inject_Z time - g_lastUpdate goal) / 1000)%Q in
  if ((diffDay =? 1) || (diffDay =? -6))
     && JS.Qltb diffTime (inject_Z (86400 * 2))
  then "add"
  else if diffDay =? 0 then "keep"
  else "reset".

(** [streakProcess(id, type, senderID)]. *)
Definition streakProcess (env : Env) (id : string) (type : string)
    (senderID : Z) : M unit :=
  let d := now env in
  let inc := if String.eqb type "prog" then 1 else 0 in
  r <- Goals.findOne id ;;
  result <- deref r ;;
  let res := streak env result in
  let newStreak :=
    if String.eqb res "add" then g_streak result + inc
    else if String.eqb res "keep" then Z.max inc (g_streak result)
    else inc in
  let total := g_total result + inc in
  (if String.eqb res "reset"
   then Goals.update id (set_streak newStreak)
   else ret tt) ;;
  (if String.eqb type "prog"
   then Goals.update id
          (set_progress newStreak (inject_Z (getTime d)) (getDay d) total)
   else ret tt).

(** ** Motivation feed *)

Definition nthZ {A} (l : list A) (i : Z) : option A :=
  if i <? 0 then None else nth_error l (Z.to_nat i).

(** The condition of the skipping loop of [sendMotivation]. *)
Definition skipped (im : Image) : bool :=
  JS.includes "imgur" (url im)
  && (negb (JS.includes "png" (url im))
      || negb (JS.includes "jpg" (url im))
      || negb (JS.includes "jpeg" (url im))).

(** The [while] loop: [inr index] when it exits, [inl TypeError] when
    [images[index]] is undefined, [inl Hang] when the fuel is spent. *)
Fixpoint skipLoop (fuel : nat) (imgs : list Image) (index : Z)
  : Failure + Z :=
  match fuel with
  | O => inl Hang
  | S fuel' =>
      match nthZ imgs index with
      | None => inl TypeError
      | Some im =>
          if skipped im
          then skipLoop fuel' imgs
                 (Z.rem (index + 1) (Z.of_nat (List.length imgs)))
          else inr index
      end
  end.
Arguments skipLoop : simpl never.

(** [sendMotivation(senderID)].  A loop that has not exited after one
    round over the feed never exits. *)
Definition sendMotivation (env : Env) (senderID : Z) : M unit :=
  r <- User.findOne senderID ;;
  result <- deref r ;;
  let index := u_lastPicTime result in
  let imgs := images env in
  if (List.length imgs =? 0)%nat then sendHome senderID
  else
    let index := Z.rem index (Z.of_nat (List.length imgs)) in
    match skipLoop (S (List.length imgs)) imgs index with
    | inl e => throw e
    | inr index =>
        im <- deref (nthZ imgs index) ;;
        let name := title im in
        sendTextMessage senderID (JS.substring 7 (String.length name) name) ;;
        User.update senderID (set_lastPicTime (index + 1)) ;;
        sendImageMessage senderID (Some (url im))
    end.

(** ** Adding a goal log *)

(** [logGoal(senderID, id, text)]. *)
Definition logGoal (env : Env) (senderID : Z) (id : string) (text : string)
  : M unit :=
  if (96 <? JS.length text)%nat
  then sendTextMessage senderID "That goal log is too long. Try another log."
  else
    let d := now env in
    r <- Goals.findOne id ;;
    result <- deref r ;;
    let oldLog :=
      (JS.String (getMonth d) ++ "/" ++ JS.String (getDate d) ++ " " ++ text)%string
      :: g_log result in
    Goals.update id (set_g_log oldLog) ;;
    User.update senderID (set_status "null") ;;
    sendTextMessage senderID
      "Log Added! Great job today! Here's your daily dose of motivation from /r/GetMotivated:" ;;
    sendMotivation env senderID.

(** ** New goal *)

(** [makeGoal(senderID)]. *)
Definition makeGoal (senderID : Z) : M unit :=
  r <- User.findOne senderID ;;
  result <- deref r ;;
  if u_numGoals result =? 5
  then
    sendTextMessage senderID
      "You have reached the maximum number of goals. Finish one or delete one to add more! Going to home..." ;;
    sendHome senderID
  else
    User.update senderID (set_status "naming_goal") ;;
    sendTextMessage senderID "What is the name of your goal?".

(** The document [nameGoal] builds. *)
Definition newGoal (env : Env) (senderID : Z) (messageText : string)
  : GoalDoc :=
  let d := now env in
  mkGoal (freshId env) senderID messageText 0 []
         (inject_Z (getTime d) / 1000)%Q (getDay d) 0.

(** [messageText.charAt(0).toUpperCase() + messageText.slice(1)]. *)
Definition capitalize (messageText : string) : string :=
  (JS.toUpperCase (JS.charAt 0 messageText) ++ JS.slice 1 messageText)%string.

(** [nameGoal(senderID, messageText)].  The goal query and the count
    query are issued one after the other, before either callback runs.
    The callbacks then run in turn: that of the goal query (reject, or
    save the goal), that of the count query (raise the count), that of
    the save (set the status), that of the count update (its reply) and
    that of the status update (its two replies). *)
Definition nameGoal (env : Env) (senderID : Z) (messageText : string)
  : M unit :=
  let messageText := capitalize messageText in
  if (100 <? JS.length messageText)%nat
  then sendTextMessage senderID "That goal name is too long. Try another name."
  else
    found <- Goals.findOneNamed senderID messageText ;;
    r <- User.findOne senderID ;;
    match found with
    | Some _ =>
        sendTextMessage senderID
          "Goal with that name has already been created. Try another name."
    | None =>
        (* Create Goal *)
        Goals.save (newGoal env senderID messageText)
    end ;;
    (* Update Goal Count *)
    result <- deref r ;;
    User.update senderID (set_numGoals (u_numGoals result + 1)) ;;
    match found with
    | Some _ => sendTextMessage senderID "What is the name of your goal?"
    | None =>
        User.update senderID (set_status "null") ;;
        sendTextMessage senderID "What is the name of your goal?" ;;
        sendTextMessage senderID
          ("Goal " ++ messageText ++
           " Added. Be sure to add progress to it every day to build up your goal streak! Going to home...")%string ;;
        sendHome senderID
    end.

(** ** Listing, viewing and confirming *)

Fixpoint forEach {A} (l : list A) (f : A -> M unit) : M unit :=
  match l with
  | [] => ret tt
  | x :: l' => f x ;; forEach l' f
  end.

(** [sendList(senderID, result, type)]: the list text is left to the
    Send API; the "Finished Goals" option depends on the user document. *)
Definition sendList (senderID : Z) (result : list GoalDoc) (type : string)
  : M unit :=
  r <- User.findOne senderID ;;
  if String.eqb type "view"
  then
    u <- deref r ;;
    callSendAPI (GoalList senderID result type
                   (negb (List.length (u_finished u) =? 0)%nat))
  else callSendAPI (GoalList senderID result type false).

(** [getList(senderID, type)]: every goal of the sender goes through
    the streak engine in view mode, then the list is read again. *)
Definition getList (env : Env) (senderID : Z) (type : string) : M unit :=
  result <- Goals.find senderID ;;
  if (List.length result =? 0)%nat
  then
    sendTextMessage senderID "No goals yet, start one from home!" ;;
    sendHome senderID
  else
    forEach result (fun g => streakProcess env (g_id g) "view" senderID) ;;
    result <- Goals.find senderID ;;
    if (List.length result =? 0)%nat
    then
      sendTextMessage senderID "No goals yet, start one from home!" ;;
      sendHome senderID
    else sendList senderID result type.

(** [sendGoal(senderID, goal)]. *)
Definition sendGoal (senderID : Z) (goal : option GoalDoc) : M unit :=
  g <- deref goal ;;
  callSendAPI (GoalCard senderID g).

(** [viewLogs(senderID, goal, index)]; [index] is kept as written in
    the payload. *)
Definition viewLogs (senderID : Z) (goal : option GoalDoc) (index : string)
  : M unit :=
  g <- deref goal ;;
  callSendAPI (LogsPage senderID g index).

(** [sendConfirm(senderID, id)]. *)
Definition sendConfirm (senderID : Z) (id : string) : M unit :=
  r <- Goals.findOne id ;;
  result <- deref r ;;
  callSendAPI (Confirm senderID id (g_name result)).

(** [sendConfirmFinish(senderID, id)]. *)
Definition sendConfirmFinish (senderID : Z) (id : string) : M unit :=
  r <- Goals.findOne id ;;
  result <- deref r ;;
  callSendAPI (ConfirmFinish senderID id (g_name result)).

(** ** Finished goals *)

Definition LF : string := String.String "010"%char EmptyString.
Definition fire : string :=
  String.String "240"%char (String.String "159"%char
    (String.String "148"%char (String.String "165"%char EmptyString))).

(** [result.length] of a user document: the document has no such
    property, so the read gives [undefined]. *)
Definition doc_length (result : UserDoc) : option Z := None.

(** [rev[i]] spliced into a string. *)
Definition item (rev : list string) (i : Z) : string :=
  match nthZ rev i with
  | Some s => s
  | None => "undefined"
  end.

(** The listing loop of "Payload finished", from [i] on. *)
Fixpoint listFinished (fuel : nat) (bound : option Z) (rev : list string)
    (i : Z) (message : string) : string :=
  match fuel with
  | O => message
  | S fuel' =>
      if JS.lt_undef i bound
      then listFinished fuel' bound rev (i + 1)
             (message ++ JS.String (i + 1) ++ ". " ++ item rev i ++ LF)%string
      else message
  end.

Definition finishedMessage (result : UserDoc) : string :=
  let message := ("Here are your finished goals:" ++ LF)%string in
  let rev := List.rev (u_finished result) in
  let bound := doc_length result in
  listFinished (match bound with Some n => Z.to_nat n | None => 0%nat end)
               bound rev 0 message.

(** ** Postbacks *)

Definition rest (from : nat) (payload : string) : string :=
  JS.substring from (String.length payload) payload.

(** [receivedPostback(event)]. *)
Definition receivedPostback (env : Env) (senderID : Z) (payload : string)
  : M unit :=
  if String.eqb payload "Payload new goal" then makeGoal senderID
  else if String.eqb payload "Payload view" then getList env senderID "view"
  else if String.eqb payload "Payload progress" then getList env senderID "prog"
  else if String.eqb (JS.substring 0 4 payload) "logs" then
    let id := rest 5 payload in
    result <- Goals.findOne id ;;
    viewLogs senderID result "0"
  else if String.eqb (JS.substring 0 4 payload) "dele" then
    let id := rest 5 payload in
    sendConfirm senderID id
  else if String.eqb (JS.substring 0 6 payload) "finish" then
    let id := rest 7 payload in
    sendConfirmFinish senderID id
  else if String.eqb payload "Payload start" then
    sendTextMessage senderID
      "Welcome to Goalt, your own goal tracker. Click on New Goal to start. Continue to add progress to achieve your goals!" ;;
    sendHome senderID
  else if String.eqb payload "Payload finished" then
    r <- User.findOne senderID ;;
    result <- deref r ;;
    sendHomeMessage senderID (finishedMessage result)
  else ret tt.

(** ** Messages *)

Record Message := mkMessage {
  is_echo : bool;
  quick_reply : option string;   (* [message.quick_reply.payload] *)
  text : option string
}.

(** The quick-reply branch of [receivedMessage], for a sender who has a
    user document.  On "prog" the status update is issued right after
    the query of [streakProcess], before the callback of that query
    runs. *)
Definition quickReply (env : Env) (senderID : Z) (payload : string)
  : M unit :=
  if String.eqb (JS.substring 0 4 payload) "view" then
    let id := rest 5 payload in
    result <- Goals.findOne id ;;
    sendGoal senderID result
  else if String.eqb (JS.substring 0 4 payload) "prog" then
    let id := rest 5 payload in
    User.update senderID (set_status ("logging_goal" ++ id)%string) ;;
    streakProcess env id "prog" senderID ;;
    sendTextMessage senderID "Add a log message to your goal!"
  else if String.eqb (JS.substring 0 4 payload) "logs" then
    let stop := String.index 0 "!" payload in
    let index :=
      match stop with
      | Some n => JS.substring 4 n payload
      | None => JS.substring 4 0 payload
      end in
    let id :=
      match stop with
      | Some n => rest (n + 1) payload
      | None => rest 0 payload
      end in
    result <- Goals.findOne id ;;
    viewLogs senderID result index
  else if String.eqb (JS.substring 0 4 payload) "no  " then
    sendTextMessage senderID "Deleting canceled, going to home..." ;;
    sendHome senderID
  else if String.eqb (JS.substring 0 4 payload) "nf  " then
    sendTextMessage senderID "Finishing canceled, going to home..." ;;
    sendHome senderID
  else if String.eqb (JS.substring 0 4 payload) "yes " then
    (* Deleting goal *)
    let id := rest 5 payload in
    err <- Goals.remove env id ;;
    if negb err then
      r <- User.findOne senderID ;;
      result <- deref r ;;
      User.update senderID (set_numGoals (u_numGoals result - 1)) ;;
      sendTextMessage senderID "Goal deleted! Going to home..." ;;
      sendHome senderID
    else
      sendTextMessage senderID
        "There was an error deleting your goal, please try again, going to home..." ;;
      sendHome senderID
  else if String.eqb (JS.substring 0 4 payload) "yef " then
    let id := rest 5 payload in
    (* Finishing Goal *)
    g <- Goals.findOne id ;;
    u <- User.findOne senderID ;;
    user <- deref u ;;
    goal <- deref g ;;
    let oldFin :=
      (g_name goal ++ " " ++ fire ++ JS.String (g_total goal))%string
      :: u_finished user in
    User.updateById id (set_u_log oldFin) ;;
    (* Deleting goal *)
    err <- Goals.remove env id ;;
    if negb err then
      r <- User.findOne senderID ;;
      result <- deref r ;;
      User.update senderID (set_numGoals (u_numGoals result - 1)) ;;
      sendTextMessage senderID
        ("CONGRATS on finishing your goal: " ++ g_name goal ++
         "! You did an absolutely fantastic job. :)" ++
         "Your goal has been moved to the finished section View Goals. Going to home...")%string ;;
      sendHome senderID
    else
      sendTextMessage senderID
        "There was an error finishing your goal, please try again, going to home..." ;;
      sendHome senderID
  else if String.eqb payload "home" then sendHome senderID
  else ret tt.

(** The text branch of [receivedMessage], on the user document the
    status query returns. *)
Definition textMessage (env : Env) (senderID : Z) (messageText : string)
    (found : option UserDoc) : M unit :=
  let messageText := JS.toLowerCase messageText in
  match found with
  | Some result =>
      (* Statuses *)
      (if String.eqb (u_status result) "naming_goal"
       then nameGoal env senderID messageText
       else if String.eqb (JS.substring 0 12 (u_status result)) "logging_goal"
       then logGoal env senderID (rest 12 (u_status result)) messageText
       else ret tt) ;;
      if String.eqb (u_status result) "null" then
        (* Standard cases *)
        if String.eqb messageText "image"
        then sendImageMessage senderID None
        else if String.eqb messageText "generic"
        then sendGenericMessage senderID
        else if String.eqb messageText "test"
        then sendTest senderID
        else sendHome senderID
      else ret tt
  | None => ret tt
  end.

(** The user document [receivedMessage] saves for a new sender, and
    the callback of that save. *)
Definition newUser (env : Env) (senderID : Z) : UserDoc :=
  mkUser (freshId env) senderID "null" 0 [] 0 None.

Definition welcome (senderID : Z) : M unit :=
  sendTextMessage senderID "Welcome, here is the home screen:" ;;
  sendHome senderID.

(** The quick-reply branch of [receivedMessage], for a sender who has no
    user document.  The save of the new user is issued by the first
    callback to run: after what the branch issues at once, before what
    its own callbacks issue.  The replies of the save come when it is
    done: after those of the callbacks of the branch, before those of
    the callbacks nested in them. *)
Definition quickReplyNew (env : Env) (senderID : Z) (payload : string)
  : M unit :=
  let save := User.save (newUser env senderID) in
  if String.eqb (JS.substring 0 4 payload) "view" then
    let id := rest 5 payload in
    save ;;
    result <- Goals.findOne id ;;
    sendGoal senderID result ;;
    welcome senderID
  else if String.eqb (JS.substring 0 4 payload) "prog" then
    let id := rest 5 payload in
    User.update senderID (set_status ("logging_goal" ++ id)%string) ;;
    save ;;
    streakProcess env id "prog" senderID ;;
    sendTextMessage senderID "Add a log message to your goal!" ;;
    welcome senderID
  else if String.eqb (JS.substring 0 4 payload) "logs" then
    let stop := String.index 0 "!" payload in
    let index :=
      match stop with
      | Some n => JS.substring 4 n payload
      | None => JS.substring 4 0 payload
      end in
    let id :=
      match stop with
      | Some n => rest (n + 1) payload
      | None => rest 0 payload
      end in
    save ;;
    result <- Goals.findOne id ;;
    viewLogs senderID result index ;;
    welcome senderID
  else if String.eqb (JS.substring 0 4 payload) "no  " then
    sendTextMessage senderID "Deleting canceled, going to home..." ;;
    sendHome senderID ;;
    save ;;
    welcome senderID
  else if String.eqb (JS.substring 0 4 payload) "nf  " then
    sendTextMessage senderID "Finishing canceled, going to home..." ;;
    sendHome senderID ;;
    save ;;
    welcome senderID
  else if String.eqb (JS.substring 0 4 payload) "yes " then
    (* Deleting goal *)
    let id := rest 5 payload in
    err <- Goals.remove env id ;;
    save ;;
    if negb err then
      welcome senderID ;;
      r <- User.findOne senderID ;;
      result <- deref r ;;
      User.update senderID (set_numGoals (u_numGoals result - 1)) ;;
      sendTextMessage senderID "Goal deleted! Going to home..." ;;
      sendHome senderID
    else
      sendTextMessage senderID
        "There was an error deleting your goal, please try again, going to home..." ;;
      sendHome senderID ;;
      welcome senderID
  else if String.eqb (JS.substring 0 4 payload) "yef " then
    let id := rest 5 payload in
    (* Finishing Goal *)
    g <- Goals.findOne id ;;
    save ;;
    welcome senderID ;;
    u <- User.findOne senderID ;;
    user <- deref u ;;
    goal <- deref g ;;
    let oldFin :=
      (g_name goal ++ " " ++ fire ++ JS.String (g_total goal))%string
      :: u_finished user in
    User.updateById id (set_u_log oldFin) ;;
    (* Deleting goal *)
    err <- Goals.remove env id ;;
    if negb err then
      r <- User.findOne senderID ;;
      result <- deref r ;;
      User.update senderID (set_numGoals (u_numGoals result - 1)) ;;
      sendTextMessage senderID
        ("CONGRATS on finishing your goal: " ++ g_name goal ++
         "! You did an absolutely fantastic job. :)" ++
         "Your goal has been moved to the finished section View Goals. Going to home...")%string ;;
      sendHome senderID
    else
      sendTextMessage senderID
        "There was an error finishing your goal, please try again, going to home..." ;;
      sendHome senderID
  else if String.eqb payload "home" then
    sendHome senderID ;;
    save ;;
    welcome senderID
  else
    save ;;
    welcome senderID.

(** [receivedMessage(event)].  The query that detects a new sender is
    issued first and the branch of the message runs in the same turn, so
    the status query of the text branch sees the store as the event
    found it. *)
Definition receivedMessage (env : Env) (senderID : Z) (message : Message)
  : M unit :=
  (* Create new user or identify user *)
  known <- User.findOne senderID ;;
  match known with
  | Some _ =>
      if is_echo message then ret tt
      else
        match quick_reply message with
        | Some payload => quickReply env senderID payload
        | None =>
            match text message with
            | Some (String.String c s) =>
                textMessage env senderID (String.String c s) known
            | _ => sendHome senderID
            end
        end
  | None =>
      if is_echo message then
        User.save (newUser env senderID) ;;
        welcome senderID
      else
        match quick_reply message with
        | Some payload => quickReplyNew env senderID payload
        | None =>
            match text message with
            | Some (String.String c s) =>
                User.save (newUser env senderID) ;;
                textMessage env senderID (String.String c s) known ;;
                welcome senderID
            | _ =>
                sendHome senderID ;;
                User.save (newUser env senderID) ;;
                welcome senderID
            end
        end
  end.

(** ** Webhook events *)

Inductive Event :=
| MessageEvent (senderID : Z) (message : Message)
| PostbackEvent (senderID : Z) (payload : string).

Definition handle (env : Env) (ev : Event) : M unit :=
  match ev with
  | MessageEvent senderID message => receivedMessage env senderID message
  | PostbackEvent senderID payload => receivedPostback env senderID payload
  end.

(** A delivery: the events handled one after the other, each in its own
    environment. *)
Fixpoint run (evs : list (Env * Event)) : M unit :=
  match evs with
  | [] => ret tt
  | (env, ev) :: evs' => handle env ev ;; run evs'
  end.

(** The live goals of a user. *)
Definition liveGoals (senderID : Z) (w : World) : list GoalDoc :=
  Coll.find (byOwner senderID) (goals w).

(** The store and replies a run ends with, whether it completes or not. *)
Definition world_of {A} (o : outcome A) : World :=
  match o with
  | Done _ w => w
  | Abort _ w => w
  end.

(** The goal document as the store holds it after [streakProcess] has
    found [g]: the effect of its two conditional updates. *)
Definition stepGoal (env : Env) (type : string) (g : GoalDoc) : GoalDoc :=
  let inc := if String.eqb type "prog" then 1 else 0 in
  let res := streak env g in
  let newStreak :=
    if String.eqb res "add" then g_streak g + inc
    else if String.eqb res "keep" then Z.max inc (g_streak g)
    else inc in
  let g1 := if String.eqb res "reset" then set_streak newStreak g else g in
  if String.eqb type "prog"
  then set_progress newStreak (inject_Z (getTime (now env)))
                    (getDay (now env)) (g_total g + inc) g1
  else g1.

(** The counters of a goal are in range. *)
Definition counted (g : GoalDoc) : Prop := 0 <= g_streak g /\ 0 <= g_total g.

(** A sequence of streak-engine events on one goal; each event has its
    own clock reads and its kind (["view"] or ["prog"]). *)
Fixpoint streakEvents (evs : list (Env * string)) (id : string)
    (senderID : Z) : M unit :=
  match evs with
  | [] => ret tt
  | (env, type) :: evs' =>
      streakProcess env id type senderID ;; streakEvents evs' id senderID
  end.

(** The stored streak and total of a goal. *)
Definition streakOf (id : string) (w : World) : option Z :=
  option_map g_streak (Coll.findOne (byId id) (goals w)).
Definition totalOf (id : string) (w : World) : option Z :=
  option_map g_total (Coll.findOne (byId id) (goals w)).
Definition userOf (senderID : Z) (w : World) : option UserDoc :=
  Coll.findOne (byName senderID) (users w).


(** ** Sample data *)

Module Sample.

(** Wednesday 15 November 2023 at 23:30, one hour later on the
    Thursday, and the Saturday of that week. *)
Definition wed : Date := mkDate 1700091000000 3 10 15.
Definition thu : Date := mkDate 1700094600000 4 10 16.
Definition sat : Date := mkDate 1700350200000 6 10 18.

Definition feed : list Image :=
  [mkImage "http://pics.example/a.png" "[Image] Keep going"].

Definition onWed (fresh : string) : Env := mkEnv wed wed fresh false feed.
Definition onThu (fresh : string) : Env := mkEnv thu thu fresh false feed.
Definition onSat (fresh : string) : Env := mkEnv sat sat fresh false feed.

Definition sender : Z := 7.

(** Object ids, as mongoose hands them out. *)
Definition u1 : string := "655548f8a1b2c3d4e5f60000".
Definition g1 : string := "655548f8a1b2c3d4e5f60001".
Definition g2 : string := "655548f8a1b2c3d4e5f60002".
Definition g3 : string := "655548f8a1b2c3d4e5f60003".
Definition g4 : string := "655548f8a1b2c3d4e5f60004".
Definition g5 : string := "655548f8a1b2c3d4e5f60005".
Definition g6 : string := "655548f8a1b2c3d4e5f60006".

Definition says (t : string) : Event :=
  MessageEvent sender (mkMessage false None (Some t)).
Definition taps (payload : string) : Event :=
  MessageEvent sender (mkMessage false (Some payload) None).
Definition presses (payload : string) : Event :=
  PostbackEvent sender payload.

(** The store before the sender's first message. *)
Definition empty : World := mkWorld [] [] [].

(** A goal last updated on Wednesday, in the units [streakProcess]
    stores. *)
Definition running (s t : Z) : GoalDoc :=
  mkGoal g1 sender "Run" s [] (inject_Z (getTime wed)) (getDay wed) t.

Definition owner (st : string) (n : Z) (fin : list string) : UserDoc :=
  mkUser u1 sender st n fin 0 None.

(** One user with one goal. *)
Definition one (st : string) (s t : Z) : World :=
  mkWorld [owner st 1 []] [running s t] [].


(** The same user, asked for the name of a second goal. *)
Definition naming : World :=
  mkWorld [owner "naming_goal" 1 []] [running 2 5] [].

(** The first contact and the taps and texts that follow it: four
    goals, a name given twice, then two more goals. *)
Definition sixGoals : list (Env * Event) :=
  [ (onWed u1, says "hi");
    (onWed "", presses "Payload new goal"); (onWed g1, says "a");
    (onWed "", presses "Payload new goal"); (onWed g2, says "b");
    (onWed "", presses "Payload new goal"); (onWed g3, says "c");
    (onWed "", presses "Payload new goal"); (onWed g4, says "d");
    (onWed "", presses "Payload new goal"); (onWed "", says "d");
    (onWed g5, says "e");
    (onWed "", presses "Payload new goal"); (onWed g6, says "f") ].

End Sample.

From Stdlib Require DecimalPos.

(** ** Fields the streak engine leaves alone *)

(** The identity of a goal and its log. *)
Definition kept (g : GoalDoc) : string * Z * string * list string :=
  (g_id g, g_user g, g_name g, g_log g).

(** The fields only a Progress event writes. *)
Definition credited (g : GoalDoc) : Q * Z * Z :=
  (g_lastUpdate g, g_lastDay g, g_total g).

(** ** Message templates

    The quick replies and postback buttons the send functions put into
    the templates they hand to [callSendAPI]. *)

(** A quick reply or a postback button. *)
Record Choice := mkChoice {
  c_title : string;
  c_payload : string
}.

(** [sendGoal]: the three buttons of the goal card. *)
Definition sendGoal_buttons (goal : GoalDoc) : list Choice :=
  [ mkChoice "View Logs" ("logs " ++ g_id goal);
    mkChoice "Finish Goal" ("finish " ++ g_id goal);
    mkChoice "Delete Goal" ("dele " ++ g_id goal) ].

(** [sendConfirm] and [sendConfirmFinish]: the two quick replies. *)
Definition sendConfirm_replies (id : string) : list Choice :=
  [ mkChoice "Yes" ("yes  " ++ id); mkChoice "No" ("no   " ++ id) ].

Definition sendConfirmFinish_replies (id : string) : list Choice :=
  [ mkChoice "Yes" ("yef  " ++ id); mkChoice "No" ("nf   " ++ id) ].

(** [sendList]: one quick reply per goal, then the finished option. *)
Definition sendList_replies (result : list GoalDoc) (type : string)
    (finishedOption : bool) : list Choice :=
  List.map (fun g => mkChoice (g_name g) (type ++ " " ++ g_id g)) result
  ++ (if finishedOption
      then [mkChoice "Finished Goals" "Payload finished"]
      else []).

(** ** Log pages *)

(** The white space and line ends [parseInt] skips: those of one byte,
    the no-break space (two bytes), and those of three bytes (U+1680,
    U+2000 to U+200A, U+2028, U+2029, U+202F, U+205F, U+3000 and
    U+FEFF). *)
Definition isSpace (c : ascii) : bool :=
  let n := nat_of_ascii c in
  ((9 <=? n)%nat && (n <=? 13)%nat) || (n =? 32)%nat.

Definition isSpace2 (c1 c2 : ascii) : bool :=
  (nat_of_ascii c1 =? 194)%nat && (nat_of_ascii c2 =? 160)%nat.

Definition isSpace3 (c1 c2 c3 : ascii) : bool :=
  let n1 := nat_of_ascii c1 in
  let n2 := nat_of_ascii c2 in
  let n3 := nat_of_ascii c3 in
  ((n1 =? 225) && (n2 =? 154) && (n3 =? 128))%nat
  || ((n1 =? 226) && (n2 =? 128)
      && (((128 <=? n3) && (n3 <=? 138)) || (n3 =? 168) || (n3 =? 169)
          || (n3 =? 175)))%nat
  || ((n1 =? 226) && (n2 =? 129) && (n3 =? 159))%nat
  || ((n1 =? 227) && (n2 =? 128) && (n3 =? 128))%nat
  || ((n1 =? 239) && (n2 =? 187) && (n3 =? 191))%nat.

Fixpoint trimStart (s : string) : string :=
  match s with
  | String.String c1 s1 =>
      if isSpace c1 then trimStart s1
      else
        match s1 with
        | String.String c2 s2 =>
            if isSpace2 c1 c2 then trimStart s2
            else
              match s2 with
              | String.String c3 s3 =>
                  if isSpace3 c1 c2 c3 then trimStart s3 else s
              | EmptyString => s
              end
        | EmptyString => s
        end
  | EmptyString => s
  end.

(** The longest prefix of decimal digits. *)
Fixpoint decimalPrefix (s : string) : Decimal.uint :=
  match s with
  | String.String c s' =>
      if Ascii.eqb c "0" then Decimal.D0 (decimalPrefix s')
      else if Ascii.eqb c "1" then Decimal.D1 (decimalPrefix s')
      else if Ascii.eqb c "2" then Decimal.D2 (decimalPrefix s')
      else if Ascii.eqb c "3" then Decimal.D3 (decimalPrefix s')
      else if Ascii.eqb c "4" then Decimal.D4 (decimalPrefix s')
      else if Ascii.eqb c "5" then Decimal.D5 (decimalPrefix s')
      else if Ascii.eqb c "6" then Decimal.D6 (decimalPrefix s')
      else if Ascii.eqb c "7" then Decimal.D7 (decimalPrefix s')
      else if Ascii.eqb c "8" then Decimal.D8 (decimalPrefix s')
      else if Ascii.eqb c "9" then Decimal.D9 (decimalPrefix s')
      else Decimal.Nil
  | EmptyString => Decimal.Nil
  end.

Definition hexDigit (c : ascii) : option nat :=
  let n := nat_of_ascii c in
  if (48 <=? n)%nat && (n <=? 57)%nat then Some (n - 48)%nat
  else if (65 <=? n)%nat && (n <=? 70)%nat then Some (n - 55)%nat
  else if (97 <=? n)%nat && (n <=? 102)%nat then Some (n - 87)%nat
  else None.

(** The value of the longest prefix of hexadecimal digits, and whether
    there is any. *)
Fixpoint hexPrefix (acc : Z) (seen : bool) (s : string) : option Z :=
  match s with
  | String.String c s' =>
      match hexDigit c with
      | Some d => hexPrefix (16 * acc + Z.of_nat d) true s'
      | None => if seen then Some acc else None
      end
  | EmptyString => if seen then Some acc else None
  end.

(** The number after the sign: hexadecimal after "0x", else decimal;
    [None] is [NaN]. *)
Definition parseBody (sign : Z) (body : string) : option Z :=
  if String.prefix "0x" body || String.prefix "0X" body
  then option_map (Z.mul sign)
         (hexPrefix 0 false
            (String.substring 2 (String.length body - 2) body))
  else
    match decimalPrefix body with
    | Decimal.Nil => None
    | d => Some (sign * Z.of_uint d)
    end.

(** [parseInt(s)] without a radix; the result is the number
    JavaScript gives where that is an integer held exactly, of magnitude
    below 2^53. *)
Definition parseInt (s : string) : option Z :=
  match trimStart s with
  | String.String c s' =>
      if Ascii.eqb c "-" then parseBody (-1) s'
      else if Ascii.eqb c "+" then parseBody 1 s'
      else parseBody 1 (String.String c s')
  | EmptyString => parseBody 1 EmptyString
  end.

(** The loop of [viewLogs]: the entries from [i] up to [bound]. *)
Fixpoint viewLogs_loop (fuel : nat) (log : list string) (i bound : Z)
  : list string :=
  match fuel with
  | O => []
  | S fuel' =>
      if i <? bound
      then item log i :: viewLogs_loop fuel' log (i + 1) bound
      else []
  end.

(** [viewLogs]: the entries of the page that starts at [index]; with
    [NaN] the loop test fails at once. *)
Definition viewLogs_lines (goal : GoalDoc) (index : option Z) : list string :=
  match index with
  | None => []
  | Some index =>
      let bound := Z.min (Z.of_nat (List.length (g_log goal))) (index + 5) in
      viewLogs_loop (Z.to_nat (bound - index)) (g_log goal) index bound
  end.

(** [viewLogs]: the quick replies; both tests fail on [NaN]. *)
Definition viewLogs_replies (goal : GoalDoc) (index : option Z)
  : list Choice :=
  let quickReply := [mkChoice "Home" "home"] in
  let quickReply :=
    match index with
    | Some index =>
        if index + 5 <? Z.of_nat (List.length (g_log goal))
        then mkChoice "View Next Logs"
               ("logs" ++ JS.String (index + 5) ++ "!" ++ g_id goal)
             :: quickReply
        else quickReply
    | None => quickReply
    end in
  match index with
  | Some index =>
      if 0 <=? index - 5
      then mkChoice "View Previous Logs"
             ("logs" ++ JS.String (index - 5) ++ "!" ++ g_id goal)
           :: quickReply
      else quickReply
  | None => quickReply
  end.

(** What the quick-reply branch of [receivedMessage] reads off a
    "logs" payload: the goal id, the index text and its number. *)
Definition logsPayload_id (payload : string) : string :=
  match String.index 0 "!" payload with
  | Some n => rest (n + 1) payload
  | None => rest 0 payload
  end.

Definition logsPayload_text (payload : string) : string :=
  match String.index 0 "!" payload with
  | Some n => JS.substring 4 n payload
  | None => JS.substring 4 0 payload
  end.

Definition logsPayload_index (payload : string) : option Z :=
  parseInt (logsPayload_text payload).

(** The index the "View Next Logs" reply of a page leads to, decoded
    from its payload. *)
Definition nextIndex (goal : GoalDoc) (index : Z) : option Z :=
  match List.find (fun c => String.eqb (c_title c) "View Next Logs")
                  (viewLogs_replies goal (Some index)) with
  | Some c => logsPayload_index (c_payload c)
  | None => None
  end.

(** The entries shown by opening the page at [index] and tapping
    "View Next Logs" for as long as it is offered, at most [taps]
    times. *)
Fixpoint browse (taps : nat) (goal : GoalDoc) (index : Z) : list string :=
  viewLogs_lines goal (Some index) ++
  match taps with
  | O => []
  | S taps' =>
      match nextIndex goal index with
      | Some index' => browse taps' goal index'
      | None => []
      end
  end.

(** ** Basic effects

    The changes to the store and to the replies out of which every
    handler run is made. *)

(** A [$set] on a user that leaves [_id], [name] and [finished]. *)
Definition keepsUser (f : UserDoc -> UserDoc) : Prop :=
  forall u, u_id (f u) = u_id u /\ u_name (f u) = u_name u /\
            u_finished (f u) = u_finished u.

(** The entry [logGoal] builds from the date and the text. *)
Definition logEntry (d : Date) (text : string) : string :=
  (JS.String (getMonth d) ++ "/" ++ JS.String (getDate d) ++ " " ++ text)%string.

Inductive worldStep : World -> World -> Prop :=
| ws_refl w : worldStep w w
| ws_trans a b c : worldStep a b -> worldStep b c -> worldStep a c
| ws_send w r :
    worldStep w (mkWorld (users w) (goals w) (sent w ++ [r]))
| ws_user w p f :
    keepsUser f ->
    worldStep w (mkWorld (Coll.update p f (users w)) (goals w) (sent w))
| ws_newUser w id senderID :
    Coll.findOne (byName senderID) (users w) = None ->
    worldStep w (mkWorld (Coll.save (mkUser id senderID "null" 0 [] 0 None)
                                    (users w))
                         (goals w) (sent w))
| ws_engine w id env type :
    worldStep w (mkWorld (users w)
                         (Coll.update (byId id) (stepGoal env type) (goals w))
                         (sent w))
| ws_log w id d text :
    (JS.length text <= 96)%nat ->
    worldStep w (mkWorld (users w)
                         (Coll.update (byId id)
                            (fun g => set_g_log (logEntry d text :: g_log g) g)
                            (goals w))
                         (sent w))
| ws_remove w id :
    worldStep w (mkWorld (users w) (Coll.remove (byId id) (goals w)) (sent w))
| ws_create w env senderID nm :
    (JS.length nm <= 100)%nat ->
    Coll.findOne (byOwnerName senderID nm) (goals w) = None ->
    worldStep w (mkWorld (users w)
                         (Coll.save (newGoal env senderID nm) (goals w))
                         (sent w)).

(** A computation whose every run, completed or not, is made of basic
    effects. *)
Definition steps {A} (m : M A) : Prop :=
  forall w, worldStep w (world_of (m w)).

(** One document per sender. *)
Definition oneUserEach (w : World) : Prop := NoDup (List.map u_name (users w)).

(** No owner has two goals of one name. *)
Definition namesUnique (w : World) : Prop :=
  NoDup (List.map (fun g => (g_user g, g_name g)) (goals w)).

(** Every goal name has at most 100 code units. *)
Definition namesShort (w : World) : Prop :=
  Forall (fun g => (JS.length (g_name g) <= 100)%nat) (goals w).

(** Every goal has a streak and a total of 0 or more. *)
Definition allCounted (w : World) : Prop := Forall counted (goals w).

(** The sender and the finished list of each user, in store order. *)
Definition finishedBySender (w : World) : list (Z * list string) :=
  List.map (fun u => (u_name u, u_finished u)) (users w).

(** ** The view pass of [getList] *)

(** The goal collection after the streak engine has run in view mode
    on each of the given ids in turn. *)
Definition viewPass (env : Env) (ids : list string) (gs : list GoalDoc)
  : list GoalDoc :=
  List.fold_left
    (fun gs id => Coll.update (byId id) (stepGoal env "view") gs) ids gs.

(** What a view pass may do to a goal: leave it, or set its streak to
    0, all other fields kept. *)
Definition decayed (g g' : GoalDoc) : Prop :=
  kept g' = kept g /\ credited g' = credited g /\
  (g_streak g' = g_streak g \/ g_streak g' = 0).

(** The goal a view-mode run on [id] would find is one the run leaves
    as it is. *)
Definition settled (env : Env) (gs : list GoalDoc) (id : string) : Prop :=
  forall g, Coll.findOne (byId id) gs = Some g -> stepGoal env "view" g = g.

(** ** More sample data *)

Module Cases.

(** A feed of one imgur post, a direct link to a PNG. *)
Definition imgurFeed : list Image :=
  [mkImage "https://i.imgur.com/a1b2c3.png" "[Image] Push on"].


Definition onThuWith (feed : list Image) : Env :=
  mkEnv Sample.thu Sample.thu "" false feed.


End Cases.

(** * Properties *)

(** ** Collections *)

Section CollFacts.
Context {A : Type}.
Variables (p : A -> bool) (f : A -> A).
Hypothesis keeps : forall x, p x = true -> p (f x) = true.

Lemma findOne_update (c : list A) :
  Coll.findOne p (Coll.update p f c) = option_map f (Coll.findOne p c).
Proof.
  induction c as [|x c IH]; simpl; [reflexivity|].
  destruct (p x) eqn:E; simpl.
  - rewrite (keeps x E). reflexivity.
  - rewrite E. exact IH.
Qed.

Lemma update_update (h : A -> A) (c : list A) :
  Coll.update p h (Coll.update p f c) = Coll.update p (fun x => h (f x)) c.
Proof.
  induction c as [|x c IH]; simpl; [reflexivity|].
  destruct (p x) eqn:E; simpl.
  - rewrite (keeps x E). reflexivity.
  - rewrite E, IH. reflexivity.
Qed.
End CollFacts.

Lemma update_ext {A} (p : A -> bool) (f h : A -> A) (c : list A) (a : A) :
  Coll.findOne p c = Some a -> f a = h a ->
  Coll.update p f c = Coll.update p h c.
Proof.
  induction c as [|x c IH]; simpl; [discriminate|].
  destruct (p x); intros H E.
  - injection H as ->. rewrite E. reflexivity.
  - rewrite (IH H E). reflexivity.
Qed.

Lemma update_same {A} (p : A -> bool) (c : list A) :
  Coll.update p (fun x => x) c = c.
Proof.
  induction c as [|x c IH]; simpl; [reflexivity|].
  destruct (p x); [reflexivity | rewrite IH; reflexivity].
Qed.

Lemma findOne_sat {A} (p : A -> bool) (c : list A) (a : A) :
  Coll.findOne p c = Some a -> p a = true.
Proof. intros H. apply (List.find_some _ _ H). Qed.

(** ** Strings *)

Lemma substring_all (s : string) : String.substring 0 (String.length s) s = s.
Proof. induction s as [|c s IH]; simpl; [reflexivity | rewrite IH; reflexivity]. Qed.

Lemma Qltb_lt (a b : Q) : JS.Qltb a b = true <-> (a < b)%Q.
Proof.
  unfold JS.Qltb. rewrite negb_true_iff. split.
  - intros H. apply Qnot_le_lt. intros L.
    apply Qle_bool_iff in L. congruence.
  - intros H. destruct (Qle_bool b a) eqn:E; [|reflexivity].
    apply Qle_bool_iff in E. exfalso. exact (Qlt_not_le _ _ H E).
Qed.

(** ** Streak engine *)

Ltac run_handler :=
  unfold bind, ret, deref, throw, Goals.findOne, Goals.update, Goals.find,
    Goals.findOneNamed, Goals.save, Goals.remove, User.findOne, User.update,
    User.updateById, User.save, sendTextMessage, sendHome, sendHomeMessage,
    sendImageMessage, callSendAPI; simpl.

Lemma stepGoal_id env type g : g_id (stepGoal env type g) = g_id g.
Proof.
  unfold stepGoal.
  destruct (String.eqb type "prog"), (String.eqb (streak env g) "reset");
    reflexivity.
Qed.

(** [streakProcess] on a goal that exists completes, and rewrites that
    goal's document to [stepGoal]. *)
Lemma streakProcess_found env id type senderID w g :
  Coll.findOne (byId id) (goals w) = Some g ->
  streakProcess env id type senderID w =
  Done tt (mkWorld (users w)
                   (Coll.update (byId id) (fun _ => stepGoal env type g) (goals w))
                   (sent w)).
Proof.
  destruct w as [us gs ss]. simpl. intros Hf.
  unfold streakProcess. run_handler. rewrite Hf. simpl.
  unfold stepGoal.
  destruct (String.eqb (streak env g) "reset") eqn:Er;
    destruct (String.eqb type "prog") eqn:Et; simpl; f_equal; f_equal.
  - rewrite update_update by (intros x Hx; exact Hx).
    apply update_ext with (a := g); [exact Hf | reflexivity].
  - apply update_ext with (a := g); [exact Hf | reflexivity].
  - apply update_ext with (a := g); [exact Hf | reflexivity].
  - rewrite <- (update_same (byId id) gs) at 1.
    apply update_ext with (a := g); [exact Hf | reflexivity].
Qed.

Lemma findOne_stepped id g' gs g :
  Coll.findOne (byId id) gs = Some g -> g_id g' = g_id g ->
  Coll.findOne (byId id) (Coll.update (byId id) (fun _ => g') gs) = Some g'.
Proof.
  intros Hf Hid. rewrite findOne_update.
  - rewrite Hf. reflexivity.
  - intros x _. unfold byId. rewrite Hid.
    exact (findOne_sat _ _ _ Hf).
Qed.

(** After [streakProcess], the goal found is the stepped document. *)
Lemma streakProcess_lookup env id type senderID w g :
  Coll.findOne (byId id) (goals w) = Some g ->
  exists w',
    streakProcess env id type senderID w = Done tt w' /\
    Coll.findOne (byId id) (goals w') = Some (stepGoal env type g) /\
    users w' = users w /\ sent w' = sent w.
Proof.
  intros Hf. eexists. split; [apply (streakProcess_found _ _ _ _ _ _ Hf)|].
  simpl. split; [|split; reflexivity].
  apply findOne_stepped with (g := g); [exact Hf | apply stepGoal_id].
Qed.

Lemma streak_add env g :
  getDay (later env) - g_lastDay g = 1 \/ getDay (later env) - g_lastDay g = -6 ->
  ((inject_Z (getTime (later env)) - g_lastUpdate g) / 1000
     < inject_Z 172800)%Q ->
  streak env g = "add".
Proof.
  intros Hd Ht. unfold streak.
  replace (86400 * 2) with 172800 by reflexivity.
  apply Qltb_lt in Ht. rewrite Ht, andb_true_r.
  destruct Hd as [-> | ->]; reflexivity.
Qed.

Lemma streak_keep env g :
  getDay (later env) - g_lastDay g = 0 -> streak env g = "keep".
Proof. intros Hd. unfold streak. rewrite Hd. reflexivity. Qed.

Lemma streak_cases env g :
  streak env g = "add" \/ streak env g = "keep" \/ streak env g = "reset".
Proof.
  unfold streak.
  destruct (_ && _); [auto|].
  destruct (_ =? 0); auto.
Qed.

(** C1: a Progress event whose day delta is +1 or -6 and whose elapsed
    time is below 172800 seconds is decided as an extension, and the
    stored streak becomes the old streak plus one. *)
Theorem streakProcess_progress_extends env id senderID w g :
  Coll.findOne (byId id) (goals w) = Some g ->
  getDay (later env) - g_lastDay g = 1 \/ getDay (later env) - g_lastDay g = -6 ->
  ((inject_Z (getTime (later env)) - g_lastUpdate g) / 1000
     < inject_Z 172800)%Q ->
  streak env g = "add" /\
  exists w',
    streakProcess env id "prog" senderID w = Done tt w' /\
    streakOf id w' = Some (g_streak g + 1).
Proof.
  intros Hf Hd Ht. pose proof (streak_add env g Hd Ht) as Ha.
  split; [exact Ha|].
  destruct (streakProcess_lookup env id "prog" senderID w g Hf)
    as (w' & Hrun & Hg & _).
  exists w'. split; [exact Hrun|].
  unfold streakOf. rewrite Hg. simpl.
  unfold stepGoal. rewrite Ha. reflexivity.
Qed.

Lemma streakProcess_progress_extends_witness :
  streak (Sample.onThu "") (Sample.running 2 5) = "add" /\
  exists w',
    streakProcess (Sample.onThu "") Sample.g1 "prog" Sample.sender
                  (Sample.one "null" 2 5) = Done tt w' /\
    streakOf Sample.g1 w' = Some 3.
Proof.
  apply (streakProcess_progress_extends (Sample.onThu "") Sample.g1
           Sample.sender
           (Sample.one "null" 2 5) (Sample.running 2 5)).
  - reflexivity.
  - left. reflexivity.
  - vm_compute. reflexivity.
Defined.

(** C2: on the same day the decision is to hold.  A Progress event
    stores max(1, old streak), so a streak of 0 becomes 1; a View event
    stores nothing, so the streak is not lowered, and it equals
    max(0, old streak) for the non-negative streaks goals have. *)
Theorem streakProcess_same_day_holds env id senderID w g :
  Coll.findOne (byId id) (goals w) = Some g ->
  getDay (later env) - g_lastDay g = 0 ->
  streak env g = "keep" /\
  (exists w',
     streakProcess env id "prog" senderID w = Done tt w' /\
     streakOf id w' = Some (Z.max 1 (g_streak g)) /\
     (g_streak g = 0 -> streakOf id w' = Some 1)) /\
  (exists w',
     streakProcess env id "view" senderID w = Done tt w' /\
     streakOf id w' = Some (g_streak g) /\
     (0 <= g_streak g -> streakOf id w' = Some (Z.max 0 (g_streak g)))).
Proof.
  intros Hf Hd. pose proof (streak_keep env g Hd) as Hk.
  split; [exact Hk|]. split.
  - destruct (streakProcess_lookup env id "prog" senderID w g Hf)
      as (w' & Hrun & Hg & _).
    exists w'. split; [exact Hrun|].
    assert (Hs : streakOf id w' = Some (Z.max 1 (g_streak g))).
    { unfold streakOf. rewrite Hg. simpl. unfold stepGoal. rewrite Hk.
      reflexivity. }
    split; [exact Hs|]. intros H0. rewrite Hs, H0. reflexivity.
  - destruct (streakProcess_lookup env id "view" senderID w g Hf)
      as (w' & Hrun & Hg & _).
    exists w'. split; [exact Hrun|].
    assert (Hs : streakOf id w' = Some (g_streak g)).
    { unfold streakOf. rewrite Hg. simpl. unfold stepGoal. rewrite Hk.
      reflexivity. }
    split; [exact Hs|]. intros H0. rewrite Hs. f_equal. lia.
Qed.

Lemma streakProcess_same_day_holds_witness :
  streak (Sample.onWed "") (Sample.running 0 0) = "keep" /\
  (exists w',
     streakProcess (Sample.onWed "") Sample.g1 "prog" Sample.sender
                   (Sample.one "null" 0 0) = Done tt w' /\
     streakOf Sample.g1 w' = Some 1 /\
     (0 = 0 -> streakOf Sample.g1 w' = Some 1)) /\
  (exists w',
     streakProcess (Sample.onWed "") Sample.g1 "view" Sample.sender
                   (Sample.one "null" 0 0) = Done tt w' /\
     streakOf Sample.g1 w' = Some 0 /\
     (0 <= 0 -> streakOf Sample.g1 w' = Some 0)).
Proof.
  apply (streakProcess_same_day_holds (Sample.onWed "") Sample.g1
           Sample.sender
           (Sample.one "null" 0 0) (Sample.running 0 0)).
  - reflexivity.
  - reflexivity.
Defined.

(** C3: a View event leaves total, lastUpdate and lastDay as stored and
    touches the streak only when the decision is a reset, which sets it
    to 0; a Progress event stores the clock's time and day and adds one
    to the total. *)
Theorem streakProcess_view_progress_frame env id senderID w g :
  Coll.findOne (byId id) (goals w) = Some g ->
  (exists w' g',
     streakProcess env id "view" senderID w = Done tt w' /\
     Coll.findOne (byId id) (goals w') = Some g' /\
     g_total g' = g_total g /\
     g_lastUpdate g' = g_lastUpdate g /\
     g_lastDay g' = g_lastDay g /\
     (streak env g = "reset" -> g_streak g' = 0) /\
     (streak env g <> "reset" -> g' = g)) /\
  (exists w' g',
     streakProcess env id "prog" senderID w = Done tt w' /\
     Coll.findOne (byId id) (goals w') = Some g' /\
     g_total g' = g_total g + 1 /\
     g_lastUpdate g' = inject_Z (getTime (now env)) /\
     g_lastDay g' = getDay (now env)).
Proof.
  intros Hf. split.
  - destruct (streakProcess_lookup env id "view" senderID w g Hf)
      as (w' & Hrun & Hg & _).
    exists w', (stepGoal env "view" g).
    split; [exact Hrun|]. split; [exact Hg|].
    unfold stepGoal. simpl.
    destruct (streak_cases env g) as [E | [E | E]]; rewrite E; simpl;
      repeat split; try reflexivity; try discriminate; congruence.
  - destruct (streakProcess_lookup env id "prog" senderID w g Hf)
      as (w' & Hrun & Hg & _).
    exists w', (stepGoal env "prog" g).
    split; [exact Hrun|]. split; [exact Hg|].
    unfold stepGoal. simpl. repeat split; reflexivity.
Qed.

Lemma streakProcess_view_progress_frame_witness :
  (exists w' g',
     streakProcess (Sample.onSat "") Sample.g1 "view" Sample.sender
                   (Sample.one "null" 5 9) = Done tt w' /\
     Coll.findOne (byId Sample.g1) (goals w') = Some g' /\
     g_total g' = 9 /\
     g_lastUpdate g' = inject_Z 1700091000000 /\
     g_lastDay g' = 3 /\
     (streak (Sample.onSat "") (Sample.running 5 9) = "reset" ->
      g_streak g' = 0) /\
     (streak (Sample.onSat "") (Sample.running 5 9) <> "reset" ->
      g' = Sample.running 5 9)) /\
  (exists w' g',
     streakProcess (Sample.onSat "") Sample.g1 "prog" Sample.sender
                   (Sample.one "null" 5 9) = Done tt w' /\
     Coll.findOne (byId Sample.g1) (goals w') = Some g' /\
     g_total g' = 10 /\
     g_lastUpdate g' = inject_Z 1700350200000 /\
     g_lastDay g' = 6).
Proof.
  apply (streakProcess_view_progress_frame (Sample.onSat "") Sample.g1
           Sample.sender (Sample.one "null" 5 9) (Sample.running 5 9)).
  reflexivity.
Defined.

(** ** Non-negative counters *)

Lemma newGoal_counted env senderID nm : counted (newGoal env senderID nm).
Proof. split; simpl; lia. Qed.

Lemma stepGoal_counted env type g : counted g -> counted (stepGoal env type g).
Proof.
  intros [Hs Ht]. unfold counted, stepGoal.
  destruct (String.eqb type "prog");
    destruct (streak_cases env g) as [E | [E | E]]; rewrite E; simpl; lia.
Qed.

Lemma streakEvents_counted evs : forall id senderID w g,
  Coll.findOne (byId id) (goals w) = Some g -> counted g ->
  exists w' g',
    streakEvents evs id senderID w = Done tt w' /\
    Coll.findOne (byId id) (goals w') = Some g' /\ counted g'.
Proof.
  induction evs as [|[env type] evs IH]; intros id senderID w g Hf Hc.
  - exists w, g. repeat split; try assumption; apply Hc.
  - destruct (streakProcess_lookup env id type senderID w g Hf)
      as (w1 & Hrun & Hg & _).
    destruct (IH id senderID w1 _ Hg (stepGoal_counted env type g Hc))
      as (w' & g' & Hrest & Hg' & Hc').
    exists w', g'. split; [|split; assumption].
    simpl. unfold bind. rewrite Hrun. exact Hrest.
Qed.

(** C9: from the document [nameGoal] creates, any sequence of View and
    Progress events on the goal runs to completion and leaves its streak
    and its total at 0 or above. *)
Theorem streak_total_nonnegative evs env0 senderID nm id w :
  Coll.findOne (byId id) (goals w) = Some (newGoal env0 senderID nm) ->
  exists w' g',
    streakEvents evs id senderID w = Done tt w' /\
    Coll.findOne (byId id) (goals w') = Some g' /\
    0 <= g_streak g' /\ 0 <= g_total g'.
Proof.
  intros Hf.
  exact (streakEvents_counted evs id senderID w _ Hf
           (newGoal_counted env0 senderID nm)).
Qed.

Lemma streak_total_nonnegative_witness :
  exists w' g',
    streakEvents [(Sample.onThu "", "prog"); (Sample.onSat "", "view")]
                 Sample.g1 Sample.sender
                 (mkWorld [Sample.owner "null" 1 []]
                          [newGoal (Sample.onWed Sample.g1) Sample.sender "Run"]
                          [])
      = Done tt w' /\
    Coll.findOne (byId Sample.g1) (goals w') = Some g' /\
    0 <= g_streak g' /\ 0 <= g_total g'.
Proof.
  apply (streak_total_nonnegative
           [(Sample.onThu "", "prog"); (Sample.onSat "", "view")]
           (Sample.onWed Sample.g1) Sample.sender "Run" Sample.g1).
  reflexivity.
Defined.

(** ** Finished goals *)

(** The listing loop never runs: the message is the header alone,
    whatever the finished list holds. *)
Lemma finishedMessage_header (result : UserDoc) :
  finishedMessage result = ("Here are your finished goals:" ++ LF)%string.
Proof. reflexivity. Qed.

(** C10: for a known user the "Payload finished" postback sends one
    message, the header line alone, and changes nothing in the store. *)
Theorem finished_postback_header_only env senderID w u :
  userOf senderID w = Some u ->
  receivedPostback env senderID "Payload finished" w =
  Done tt (mkWorld (users w) (goals w)
             (sent w ++ [HomeMessage senderID
                           ("Here are your finished goals:" ++ LF)%string])).
Proof.
  intros Hu. unfold receivedPostback. simpl. run_handler.
  unfold userOf in Hu. rewrite Hu. reflexivity.
Qed.

Lemma finished_postback_header_only_witness :
  receivedPostback (Sample.onThu "") Sample.sender "Payload finished"
    (mkWorld [Sample.owner "null" 0 ["Run " ++ fire ++ "12"; "Read " ++ fire ++ "3"]%string]
             [] []) =
  Done tt (mkWorld [Sample.owner "null" 0 ["Run " ++ fire ++ "12"; "Read " ++ fire ++ "3"]%string]
             []
             [HomeMessage Sample.sender
                ("Here are your finished goals:" ++ LF)%string]).
Proof.
  apply (finished_postback_header_only (Sample.onThu "") Sample.sender
           (mkWorld [Sample.owner "null" 0
                       ["Run " ++ fire ++ "12"; "Read " ++ fire ++ "3"]%string]
                    [] [])
           (Sample.owner "null" 0
              ["Run " ++ fire ++ "12"; "Read " ++ fire ++ "3"]%string)).
  reflexivity.
Defined.

(** ** Logging progress *)

Lemma rest_logging id : rest 12 ("logging_goal" ++ id) = id.
Proof.
  unfold rest, JS.substring. simpl.
  rewrite Nat.sub_0_r. apply substring_all.
Qed.

Lemma head_logging id : JS.substring 0 12 ("logging_goal" ++ id) = "logging_goal".
Proof. unfold JS.substring. simpl. destruct id; reflexivity. Qed.

Lemma userOf_update senderID f us gs ss :
  (forall u, u_name (f u) = u_name u) ->
  userOf senderID (mkWorld (Coll.update (byName senderID) f us) gs ss) =
  option_map f (userOf senderID (mkWorld us gs ss)).
Proof.
  intros Hn. unfold userOf. simpl. apply findOne_update.
  intros x Hx. unfold byName in *. rewrite Hn. exact Hx.
Qed.


(** A text that passes the length check is logged, the status is reset
    and the motivation feed is consulted. *)
Lemma logGoal_accepts env senderID id t us gs ss g :
  (JS.length t <= 96)%nat ->
  Coll.findOne (byId id) gs = Some g ->
  logGoal env senderID id t (mkWorld us gs ss) =
  sendMotivation env senderID
    (mkWorld (Coll.update (byName senderID) (set_status "null") us)
             (Coll.update (byId id)
                (set_g_log ((JS.String (getMonth (now env)) ++ "/" ++
                             JS.String (getDate (now env)) ++ " " ++ t)%string
                            :: g_log g)) gs)
             (ss ++ [TextMessage senderID
                       "Log Added! Great job today! Here's your daily dose of motivation from /r/GetMotivated:"])).
Proof.
  intros Hlen Hg. apply Nat.ltb_ge in Hlen.
  unfold logGoal. rewrite Hlen.
  unfold bind, Goals.findOne, Goals.update, User.update, deref, ret,
    sendTextMessage, callSendAPI.
  cbn [users goals sent]. rewrite Hg. reflexivity.
Qed.

(** The engine runs in progress mode when the goal is picked: the
    "prog" quick reply steps the goal and moves the user to the logging
    state of that goal. *)
Lemma rest_prog id : rest 5 ("prog " ++ id) = id.
Proof.
  unfold rest, JS.substring. simpl.
  rewrite Nat.sub_0_r. apply substring_all.
Qed.

Lemma quickReply_prog env senderID id w g :
  Coll.findOne (byId id) (goals w) = Some g ->
  quickReply env senderID ("prog " ++ id) w =
  Done tt (mkWorld
             (Coll.update (byName senderID)
                (set_status ("logging_goal" ++ id)%string) (users w))
             (Coll.update (byId id) (fun _ => stepGoal env "prog" g) (goals w))
             (sent w ++ [TextMessage senderID "Add a log message to your goal!"])).
Proof.
  intros Hg. unfold quickReply.
  change (String.eqb (JS.substring 0 4 ("prog " ++ id)) "view") with false.
  change (String.eqb (JS.substring 0 4 ("prog " ++ id)) "prog") with true.
  cbv iota. rewrite rest_prog. unfold bind at 1. unfold User.update at 1.
  unfold bind at 1.
  rewrite (streakProcess_found env id "prog" senderID
             (mkWorld (Coll.update (byName senderID)
                         (set_status ("logging_goal" ++ id)%string) (users w))
                      (goals w) (sent w)) g Hg).
  reflexivity.
Qed.




(** ** Goal count *)

(** At a count of 5, "new goal" is refused and nothing is stored. *)
Lemma makeGoal_at_cap senderID w u :
  userOf senderID w = Some u -> u_numGoals u = 5 ->
  makeGoal senderID w =
  Done tt (mkWorld (users w) (goals w)
             (sent w ++
              [TextMessage senderID
                 "You have reached the maximum number of goals. Finish one or delete one to add more! Going to home...";
               Home senderID])).
Proof.
  intros Hu H5. unfold makeGoal. run_handler.
  unfold userOf in Hu. rewrite Hu. simpl. rewrite H5. simpl.
  rewrite <- app_assoc. reflexivity.
Qed.

(** C4 at a failing run: starting from the empty store, a user who
    gives one goal name twice ends with six live goals and a count of 7.
    The rejected name raised the count to 5 with the naming state kept,
    the next name made it 6, and the cap test, an equality with 5, no
    longer matched. *)
Theorem six_live_goals :
  exists w,
    run Sample.sixGoals Sample.empty = Done tt w /\
    List.length (liveGoals Sample.sender w) = 6%nat /\
    option_map u_numGoals (userOf Sample.sender w) = Some 7.
Proof.
  eexists. split; [vm_compute; reflexivity|].
  split; reflexivity.
Qed.

(** ** Naming a goal *)

(** A name over 100 code units is refused before any query: nothing
    is stored and the status stays as it is. *)
Lemma nameGoal_too_long env senderID t w :
  (100 < JS.length (capitalize t))%nat ->
  nameGoal env senderID t w =
  Done tt (mkWorld (users w) (goals w)
             (sent w ++ [TextMessage senderID
                           "That goal name is too long. Try another name."])).
Proof.
  intros Hlen. apply Nat.ltb_lt in Hlen.
  unfold nameGoal. cbv zeta. rewrite Hlen. reflexivity.
Qed.

(** A name the owner already uses creates no goal and leaves the
    status, but the count update that follows the query still runs. *)
Lemma nameGoal_duplicate env senderID t w g u :
  (JS.length (capitalize t) <= 100)%nat ->
  Coll.findOne (byOwnerName senderID (capitalize t)) (goals w) = Some g ->
  userOf senderID w = Some u ->
  nameGoal env senderID t w =
  Done tt (mkWorld
             (Coll.update (byName senderID)
                (set_numGoals (u_numGoals u + 1)) (users w))
             (goals w)
             (sent w ++
              [TextMessage senderID
                 "Goal with that name has already been created. Try another name.";
               TextMessage senderID "What is the name of your goal?"])).
Proof.
  intros Hlen Hg Hu. apply Nat.ltb_ge in Hlen.
  unfold nameGoal. cbv zeta. rewrite Hlen.
  unfold bind, Goals.findOneNamed, User.findOne, User.update, deref, ret,
    sendTextMessage, callSendAPI.
  cbn [users goals sent]. rewrite Hg. cbn [users goals sent].
  unfold userOf in Hu. rewrite Hu. cbn [users goals sent].
  rewrite <- app_assoc. reflexivity.
Qed.

(** C5 at a failing input: the owner of "Run" is asked for a name and
    answers "Run" again.  No goal is created and the status is kept,
    but the goal count goes from 1 to 2. *)
Theorem duplicate_name_raises_count :
  exists w,
    handle (Sample.onThu Sample.g2) (Sample.says "Run") Sample.naming = Done tt w /\
    goals w = goals Sample.naming /\
    option_map u_status (userOf Sample.sender w) = Some "naming_goal" /\
    option_map u_numGoals (userOf Sample.sender Sample.naming) = Some 1 /\
    option_map u_numGoals (userOf Sample.sender w) = Some 2.
Proof.
  eexists. split; [vm_compute; reflexivity|].
  repeat split; reflexivity.
Qed.

(** ** Finishing a goal *)

Lemma rest_yef id : rest 5 ("yef  " ++ id) = id.
Proof.
  unfold rest, JS.substring. simpl.
  rewrite Nat.sub_0_r. apply substring_all.
Qed.

Lemma finished_update (p : UserDoc -> bool) f us :
  (forall u, u_finished (f u) = u_finished u) ->
  List.map u_finished (Coll.update p f us) = List.map u_finished us.
Proof.
  intros Hf. induction us as [|u us IH]; simpl; [reflexivity|].
  destruct (p u); simpl; [rewrite Hf | rewrite IH]; reflexivity.
Qed.

(** The finish path writes [log] on the user whose [_id] is the goal's
    id, and [numGoals]: no [finished] field of any user changes. *)
Lemma finish_keeps_finished env senderID id w :
  List.map u_finished
    (users (world_of (quickReply env senderID ("yef  " ++ id) w))) =
  List.map u_finished (users w).
Proof.
  unfold quickReply.
  change (String.eqb (JS.substring 0 4 ("yef  " ++ id)) "view") with false.
  change (String.eqb (JS.substring 0 4 ("yef  " ++ id)) "prog") with false.
  change (String.eqb (JS.substring 0 4 ("yef  " ++ id)) "logs") with false.
  change (String.eqb (JS.substring 0 4 ("yef  " ++ id)) "no  ") with false.
  change (String.eqb (JS.substring 0 4 ("yef  " ++ id)) "nf  ") with false.
  change (String.eqb (JS.substring 0 4 ("yef  " ++ id)) "yes ") with false.
  change (String.eqb (JS.substring 0 4 ("yef  " ++ id)) "yef ") with true.
  cbv iota. rewrite rest_yef. destruct w as [us gs ss].
  unfold bind, Goals.findOne, Goals.remove, User.findOne, User.update,
    User.updateById, deref, ret, throw, sendTextMessage, sendHome, callSendAPI.
  cbn [users goals sent].
  destruct (Coll.findOne (byName senderID) us) as [u|]; [|reflexivity].
  destruct (Coll.findOne (byId id) gs) as [g|]; [|reflexivity].
  cbn [users goals sent].
  destruct (removeErr env); cbn [negb users goals sent world_of].
  - apply finished_update. reflexivity.
  - destruct (Coll.findOne (byName senderID) _) as [u'|];
      cbn [users goals sent world_of].
    + rewrite !finished_update by reflexivity. reflexivity.
    + apply finished_update. reflexivity.
Qed.

(** C6 at a failing input: the owner of "Run" (total 5) confirms the
    finish.  The goal is removed and the count drops from 1 to 0, but
    the stored [finished] list is still empty: the summary
    "Run <fire>5" was not stored. *)
Theorem finish_does_not_store_summary :
  exists w,
    handle (Sample.onThu "") (Sample.taps ("yef  " ++ Sample.g1))
           (Sample.one "null" 2 5) = Done tt w /\
    liveGoals Sample.sender w = [] /\
    option_map u_numGoals (userOf Sample.sender w) = Some 0 /\
    option_map u_finished (userOf Sample.sender w) = Some [] /\
    option_map u_log (userOf Sample.sender w) = Some None.
Proof.
  eexists. split; [vm_compute; reflexivity|].
  repeat split; reflexivity.
Qed.

(** ** Deleting a goal *)

Lemma rest_yes id : rest 5 ("yes  " ++ id) = id.
Proof.
  unfold rest, JS.substring. simpl.
  rewrite Nat.sub_0_r. apply substring_all.
Qed.

Lemma remove_absent {A} (p : A -> bool) (c : list A) :
  Coll.findOne p c = None -> Coll.remove p c = c.
Proof.
  induction c as [|x c IH]; simpl; [reflexivity|].
  destruct (p x) eqn:E; [discriminate|].
  intros H. unfold Coll.remove in *. simpl.
  rewrite (IH H). reflexivity.
Qed.

(** A confirmed delete of an id the store does not hold: the removal
    reports no error, so the count is lowered all the same. *)
Lemma delete_absent_goal_lowers_count env senderID id w u :
  removeErr env = false ->
  Coll.findOne (byId id) (goals w) = None ->
  userOf senderID w = Some u ->
  quickReply env senderID ("yes  " ++ id) w =
  Done tt (mkWorld
             (Coll.update (byName senderID)
                (set_numGoals (u_numGoals u - 1)) (users w))
             (goals w)
             (sent w ++ [TextMessage senderID "Goal deleted! Going to home...";
                         Home senderID])).
Proof.
  intros He Hg Hu. unfold quickReply.
  change (String.eqb (JS.substring 0 4 ("yes  " ++ id)) "view") with false.
  change (String.eqb (JS.substring 0 4 ("yes  " ++ id)) "prog") with false.
  change (String.eqb (JS.substring 0 4 ("yes  " ++ id)) "logs") with false.
  change (String.eqb (JS.substring 0 4 ("yes  " ++ id)) "no  ") with false.
  change (String.eqb (JS.substring 0 4 ("yes  " ++ id)) "nf  ") with false.
  change (String.eqb (JS.substring 0 4 ("yes  " ++ id)) "yes ") with true.
  cbv iota. rewrite rest_yes.
  unfold bind, Goals.remove, User.findOne, User.update, deref, ret,
    sendTextMessage, sendHome, callSendAPI.
  rewrite He. cbn [negb users goals sent].
  rewrite (remove_absent _ _ Hg).
  unfold userOf in Hu. rewrite Hu. cbn [users goals sent].
  rewrite <- app_assoc. reflexivity.
Qed.

(** When the store reports an error the delete path stores nothing. *)
Lemma delete_store_error env senderID id w :
  removeErr env = true ->
  quickReply env senderID ("yes  " ++ id) w =
  Done tt (mkWorld (users w) (goals w)
             (sent w ++
              [TextMessage senderID
                 "There was an error deleting your goal, please try again, going to home...";
               Home senderID])).
Proof.
  intros He. unfold quickReply.
  change (String.eqb (JS.substring 0 4 ("yes  " ++ id)) "view") with false.
  change (String.eqb (JS.substring 0 4 ("yes  " ++ id)) "prog") with false.
  change (String.eqb (JS.substring 0 4 ("yes  " ++ id)) "logs") with false.
  change (String.eqb (JS.substring 0 4 ("yes  " ++ id)) "no  ") with false.
  change (String.eqb (JS.substring 0 4 ("yes  " ++ id)) "nf  ") with false.
  change (String.eqb (JS.substring 0 4 ("yes  " ++ id)) "yes ") with true.
  cbv iota.
  unfold bind, Goals.remove, sendTextMessage, sendHome, callSendAPI.
  rewrite He. cbn [negb users goals sent].
  rewrite <- app_assoc. reflexivity.
Qed.

(** C7 at a failing input: the owner of one goal confirms its deletion
    twice.  The first confirmation removes the goal and lowers the count
    to 0; the second finds no goal, completes with the same "Goal
    deleted!" reply, and lowers the count to -1. *)
Theorem second_delete_lowers_count :
  exists w1 w2,
    handle (Sample.onThu "") (Sample.taps ("yes  " ++ Sample.g1))
           (Sample.one "null" 2 5) = Done tt w1 /\
    goals w1 = [] /\
    option_map u_numGoals (userOf Sample.sender w1) = Some 0 /\
    handle (Sample.onThu "") (Sample.taps ("yes  " ++ Sample.g1)) w1 = Done tt w2 /\
    goals w2 = [] /\
    option_map u_numGoals (userOf Sample.sender w2) = Some (-1).
Proof.
  eexists. eexists. split; [vm_compute; reflexivity|].
  split; [reflexivity|]. split; [reflexivity|].
  split; [vm_compute; reflexivity|].
  split; reflexivity.
Qed.

(** * Further properties of the handlers *)

(** ** Streak engine: edges and composition *)

Lemma streakProcess_absent env id type senderID w :
  Coll.findOne (byId id) (goals w) = None ->
  streakProcess env id type senderID w = Abort TypeError w.
Proof.
  intros Hf. unfold streakProcess, bind, Goals.findOne, deref, throw.
  rewrite Hf. reflexivity.
Qed.

(** X1: the streak engine on an id the store does not hold raises a
    [TypeError] and leaves users, goals and replies as they were. *)
Theorem streakProcess_missing_goal env id type senderID w :
  Coll.findOne (byId id) (goals w) = None ->
  streakProcess env id type senderID w = Abort TypeError w.
Proof.
  intros Hf. unfold streakProcess.
  unfold bind at 1. unfold Goals.findOne at 1. rewrite Hf.
  unfold bind at 1. reflexivity.
Qed.

Lemma streakProcess_missing_goal_witness :
  streakProcess (Sample.onThu "") Sample.g2 "prog" Sample.sender
                (Sample.one "null" 2 5)
  = Abort TypeError (Sample.one "null" 2 5).
Proof.
  apply (streakProcess_missing_goal (Sample.onThu "") Sample.g2 "prog"
           Sample.sender (Sample.one "null" 2 5)).
  reflexivity.
Defined.

Lemma map_update_fixed {A B} (p : A -> bool) (f : A -> A) (h : A -> B) c :
  (forall x, p x = true -> h (f x) = h x) ->
  List.map h (Coll.update p f c) = List.map h c.
Proof.
  intros Hh. induction c as [|x c IH]; simpl; [reflexivity|].
  destruct (p x) eqn:E; simpl; [rewrite (Hh x E) | rewrite IH]; reflexivity.
Qed.

Lemma stepGoal_kept env type g : kept (stepGoal env type g) = kept g.
Proof.
  unfold stepGoal.
  destruct (String.eqb type "prog"), (String.eqb (streak env g) "reset");
    reflexivity.
Qed.

Lemma stepGoal_view_credited env g :
  credited (stepGoal env "view" g) = credited g.
Proof.
  unfold stepGoal. simpl.
  destruct (String.eqb (streak env g) "reset"); reflexivity.
Qed.

(** The streak engine as one update of the document it finds. *)
Lemma streakProcess_update env id type senderID w g :
  Coll.findOne (byId id) (goals w) = Some g ->
  streakProcess env id type senderID w =
  Done tt (mkWorld (users w)
                   (Coll.update (byId id) (stepGoal env type) (goals w))
                   (sent w)).
Proof.
  intros Hf. rewrite (streakProcess_found env id type senderID w g Hf).
  f_equal. f_equal.
  apply update_ext with (a := g); [exact Hf | reflexivity].
Qed.

(** X2: whatever the event kind and whether or not the goal exists, the
    streak engine sends nothing, touches no user, adds or removes no
    goal, and changes no goal's id, owner, name or log. *)
Theorem streakProcess_frame env id type senderID w :
  users (world_of (streakProcess env id type senderID w)) = users w /\
  sent (world_of (streakProcess env id type senderID w)) = sent w /\
  List.map kept (goals (world_of (streakProcess env id type senderID w)))
  = List.map kept (goals w).
Proof.
  destruct (Coll.findOne (byId id) (goals w)) as [g|] eqn:Hf.
  - rewrite (streakProcess_update env id type senderID w g Hf). simpl.
    repeat split.
    apply map_update_fixed. intros x _. apply stepGoal_kept.
  - rewrite (streakProcess_absent env id type senderID w Hf).
    repeat split.
Qed.

(** X3: on a goal whose streak is not negative, a Progress event stores
    a streak between 1 and the old streak plus one, and a View event a
    streak between 0 and the old streak. *)
Theorem streakProcess_streak_bounds env id senderID w g :
  Coll.findOne (byId id) (goals w) = Some g ->
  0 <= g_streak g ->
  (exists w' s',
     streakProcess env id "prog" senderID w = Done tt w' /\
     streakOf id w' = Some s' /\ 1 <= s' <= g_streak g + 1) /\
  (exists w' s',
     streakProcess env id "view" senderID w = Done tt w' /\
     streakOf id w' = Some s' /\ 0 <= s' <= g_streak g).
Proof.
  intros Hf Hs. split.
  - destruct (streakProcess_lookup env id "prog" senderID w g Hf)
      as (w' & Hrun & Hg & _).
    exists w', (g_streak (stepGoal env "prog" g)).
    split; [exact Hrun|]. split; [unfold streakOf; rewrite Hg; reflexivity|].
    unfold stepGoal.
    destruct (streak_cases env g) as [E | [E | E]]; rewrite E; simpl; lia.
  - destruct (streakProcess_lookup env id "view" senderID w g Hf)
      as (w' & Hrun & Hg & _).
    exists w', (g_streak (stepGoal env "view" g)).
    split; [exact Hrun|]. split; [unfold streakOf; rewrite Hg; reflexivity|].
    unfold stepGoal.
    destruct (streak_cases env g) as [E | [E | E]]; rewrite E; simpl; lia.
Qed.

Lemma streakProcess_streak_bounds_witness :
  (exists w' s',
     streakProcess (Sample.onThu "") Sample.g1 "prog" Sample.sender
                   (Sample.one "null" 2 5) = Done tt w' /\
     streakOf Sample.g1 w' = Some s' /\ 1 <= s' <= 2 + 1) /\
  (exists w' s',
     streakProcess (Sample.onThu "") Sample.g1 "view" Sample.sender
                   (Sample.one "null" 2 5) = Done tt w' /\
     streakOf Sample.g1 w' = Some s' /\ 0 <= s' <= 2).
Proof.
  apply (streakProcess_streak_bounds (Sample.onThu "") Sample.g1
           Sample.sender (Sample.one "null" 2 5) (Sample.running 2 5)).
  - reflexivity.
  - simpl. lia.
Defined.

Lemma Qltb_ge (a b : Q) : (b <= a)%Q -> JS.Qltb a b = false.
Proof.
  intros H. unfold JS.Qltb. apply Qle_bool_iff in H. rewrite H. reflexivity.
Qed.

(** X4: when the weekday differs and the event is not a next-day event
    inside 48 hours, the decision is a reset: a Progress event stores
    streak 1 and still adds one to the total, a View event stores
    streak 0 and leaves the total. *)
Theorem streakProcess_reset env id senderID w g :
  Coll.findOne (byId id) (goals w) = Some g ->
  getDay (later env) - g_lastDay g <> 0 ->
  (getDay (later env) - g_lastDay g = 1 \/
   getDay (later env) - g_lastDay g = -6 ->
   (inject_Z 172800
      <= (inject_Z (getTime (later env)) - g_lastUpdate g) / 1000)%Q) ->
  streak env g = "reset" /\
  (exists w',
     streakProcess env id "prog" senderID w = Done tt w' /\
     streakOf id w' = Some 1 /\ totalOf id w' = Some (g_total g + 1)) /\
  (exists w',
     streakProcess env id "view" senderID w = Done tt w' /\
     streakOf id w' = Some 0 /\ totalOf id w' = Some (g_total g)).
Proof.
  intros Hf H0 Hlate.
  assert (Hr : streak env g = "reset").
  { unfold streak.
    replace (86400 * 2) with 172800 by reflexivity.
    destruct (getDay (later env) - g_lastDay g =? 1) eqn:E1.
    - apply Z.eqb_eq in E1. rewrite (Qltb_ge _ _ (Hlate (or_introl E1))).
      simpl. apply Z.eqb_neq in H0. rewrite H0. reflexivity.
    - destruct (getDay (later env) - g_lastDay g =? -6) eqn:E6.
      + apply Z.eqb_eq in E6. rewrite (Qltb_ge _ _ (Hlate (or_intror E6))).
        simpl. apply Z.eqb_neq in H0. rewrite H0. reflexivity.
      + simpl. apply Z.eqb_neq in H0. rewrite H0. reflexivity. }
  split; [exact Hr|]. split.
  - destruct (streakProcess_lookup env id "prog" senderID w g Hf)
      as (w' & Hrun & Hg & _).
    exists w'. split; [exact Hrun|].
    unfold streakOf, totalOf. rewrite Hg. simpl.
    unfold stepGoal. rewrite Hr. split; reflexivity.
  - destruct (streakProcess_lookup env id "view" senderID w g Hf)
      as (w' & Hrun & Hg & _).
    exists w'. split; [exact Hrun|].
    unfold streakOf, totalOf. rewrite Hg. simpl.
    unfold stepGoal. rewrite Hr. split; reflexivity.
Qed.

Lemma streakProcess_reset_witness :
  streak (Sample.onSat "") (Sample.running 5 9) = "reset" /\
  (exists w',
     streakProcess (Sample.onSat "") Sample.g1 "prog" Sample.sender
                   (Sample.one "null" 5 9) = Done tt w' /\
     streakOf Sample.g1 w' = Some 1 /\ totalOf Sample.g1 w' = Some 10) /\
  (exists w',
     streakProcess (Sample.onSat "") Sample.g1 "view" Sample.sender
                   (Sample.one "null" 5 9) = Done tt w' /\
     streakOf Sample.g1 w' = Some 0 /\ totalOf Sample.g1 w' = Some 9).
Proof.
  apply (streakProcess_reset (Sample.onSat "") Sample.g1 Sample.sender
           (Sample.one "null" 5 9) (Sample.running 5 9)).
  - reflexivity.
  - vm_compute. discriminate.
  - vm_compute. intros [H | H]; discriminate H.
Defined.

(** [nameGoal] stores the creation time in seconds while [streak] reads
    it as milliseconds: for a creation later than two days after the
    epoch, the elapsed time the engine computes is over 48 hours. *)
Lemma fresh_goal_elapsed env0 env senderID nm :
  172972973 <= getTime (now env0) ->
  getTime (now env0) <= getTime (later env) ->
  (inject_Z 172800
     <= (inject_Z (getTime (later env))
         - g_lastUpdate (newGoal env0 senderID nm)) / 1000)%Q.
Proof.
  intros H0 H1. simpl.
  unfold Qle, Qdiv, Qminus, Qplus, Qopp, Qmult, Qinv, inject_Z. simpl.
  lia.
Qed.

(** X5: the first event on a goal as [nameGoal] created it is never
    decided as an extension; a Progress event stores streak 1 and total
    1 all the same, whichever of the other two decisions is taken. *)
Theorem fresh_goal_first_progress env0 env id senderID nm w :
  Coll.findOne (byId id) (goals w) = Some (newGoal env0 senderID nm) ->
  172972973 <= getTime (now env0) ->
  getTime (now env0) <= getTime (later env) ->
  streak env (newGoal env0 senderID nm) <> "add" /\
  exists w',
    streakProcess env id "prog" senderID w = Done tt w' /\
    streakOf id w' = Some 1 /\ totalOf id w' = Some 1.
Proof.
  intros Hf H0 H1.
  pose proof (fresh_goal_elapsed env0 env senderID nm H0 H1) as Hlate.
  assert (Hna : streak env (newGoal env0 senderID nm) <> "add").
  { unfold streak. replace (86400 * 2) with 172800 by reflexivity.
    rewrite (Qltb_ge _ _ Hlate), andb_false_r.
    destruct (_ =? 0); discriminate. }
  split; [exact Hna|].
  destruct (streakProcess_lookup env id "prog" senderID w _ Hf)
    as (w' & Hrun & Hg & _).
  exists w'. split; [exact Hrun|].
  unfold streakOf, totalOf. rewrite Hg. simpl. unfold stepGoal.
  destruct (streak_cases env (newGoal env0 senderID nm)) as [E | [E | E]];
    [contradiction | rewrite E; split; reflexivity ..].
Qed.

Lemma fresh_goal_first_progress_witness :
  streak (Sample.onThu "") (newGoal (Sample.onWed Sample.g1) Sample.sender "Run")
    <> "add" /\
  exists w',
    streakProcess (Sample.onThu "") Sample.g1 "prog" Sample.sender
      (mkWorld [Sample.owner "null" 1 []]
               [newGoal (Sample.onWed Sample.g1) Sample.sender "Run"] [])
    = Done tt w' /\
    streakOf Sample.g1 w' = Some 1 /\ totalOf Sample.g1 w' = Some 1.
Proof.
  apply (fresh_goal_first_progress (Sample.onWed Sample.g1) (Sample.onThu "")
           Sample.g1 Sample.sender "Run").
  - reflexivity.
  - vm_compute. discriminate.
  - vm_compute. discriminate.
Defined.

Lemma update_pointwise {A} (p : A -> bool) (f h : A -> A) (c : list A) :
  (forall x, f x = h x) -> Coll.update p f c = Coll.update p h c.
Proof.
  intros E. induction c as [|x c IH]; simpl; [reflexivity|].
  rewrite E, IH. reflexivity.
Qed.

Lemma streak_set_streak env v g : streak env (set_streak v g) = streak env g.
Proof. reflexivity. Qed.

Lemma stepGoal_view_again env g :
  stepGoal env "view" (stepGoal env "view" g) = stepGoal env "view" g.
Proof.
  unfold stepGoal. simpl.
  destruct (streak_cases env g) as [E | [E | E]]; rewrite E; simpl.
  - rewrite E. reflexivity.
  - rewrite E. reflexivity.
  - rewrite streak_set_streak, E. reflexivity.
Qed.

Lemma stepGoal_byId env type id g :
  byId id g = true -> byId id (stepGoal env type g) = true.
Proof. unfold byId. rewrite stepGoal_id. exact (fun H => H). Qed.

(** X6: a View event is idempotent: running the engine in view mode a
    second time with the same clock leaves the store exactly as the
    first run left it. *)
Theorem streakProcess_view_twice env id senderID w :
  world_of (streakProcess env id "view" senderID
              (world_of (streakProcess env id "view" senderID w)))
  = world_of (streakProcess env id "view" senderID w).
Proof.
  destruct (Coll.findOne (byId id) (goals w)) as [g|] eqn:Hf.
  - destruct (streakProcess_lookup env id "view" senderID w g Hf)
      as (w1 & Hrun & Hg & _).
    rewrite Hrun. simpl.
    rewrite (streakProcess_update env id "view" senderID w1 _ Hg). simpl.
    rewrite (streakProcess_update env id "view" senderID w g Hf) in Hrun.
    injection Hrun as <-. simpl.
    rewrite update_update by (intros x Hx; apply stepGoal_byId; exact Hx).
    f_equal. apply update_pointwise. intros x. apply stepGoal_view_again.
  - rewrite (streakProcess_absent env id "view" senderID w Hf). simpl.
    rewrite (streakProcess_absent env id "view" senderID w Hf).
    reflexivity.
Qed.

(** X7: a Progress event delivered twice with the same clock (weekday
    read alike at both clock reads) is counted twice in the total, but
    the second delivery holds the streak the first one stored. *)
Theorem streakProcess_progress_twice env id senderID w g :
  Coll.findOne (byId id) (goals w) = Some g ->
  0 <= g_streak g ->
  getDay (later env) = getDay (now env) ->
  exists w1 w2 s1,
    streakProcess env id "prog" senderID w = Done tt w1 /\
    streakProcess env id "prog" senderID w1 = Done tt w2 /\
    streakOf id w1 = Some s1 /\ streakOf id w2 = Some s1 /\
    totalOf id w2 = Some (g_total g + 2).
Proof.
  intros Hf Hs Hday.
  destruct (streakProcess_lookup env id "prog" senderID w g Hf)
    as (w1 & Hrun1 & Hg1 & _).
  destruct (streakProcess_lookup env id "prog" senderID w1 _ Hg1)
    as (w2 & Hrun2 & Hg2 & _).
  exists w1, w2, (g_streak (stepGoal env "prog" g)).
  split; [exact Hrun1|]. split; [exact Hrun2|].
  unfold streakOf, totalOf. rewrite Hg1, Hg2. cbn [option_map].
  split; [reflexivity|].
  assert (Hk : streak env (stepGoal env "prog" g) = "keep").
  { apply streak_keep. unfold stepGoal. simpl. lia. }
  assert (H1 : 1 <= g_streak (stepGoal env "prog" g)).
  { unfold stepGoal.
    destruct (streak_cases env g) as [E | [E | E]]; rewrite E; simpl; lia. }
  assert (Ht : forall x, g_total (stepGoal env "prog" x) = g_total x + 1)
    by reflexivity.
  rewrite !Ht.
  remember (stepGoal env "prog" g) as g1 eqn:Eg1.
  split; f_equal; [|lia].
  unfold stepGoal. rewrite Hk. simpl. lia.
Qed.

Lemma streakProcess_progress_twice_witness :
  exists w1 w2 s1,
    streakProcess (Sample.onThu "") Sample.g1 "prog" Sample.sender
                  (Sample.one "null" 2 5) = Done tt w1 /\
    streakProcess (Sample.onThu "") Sample.g1 "prog" Sample.sender w1
      = Done tt w2 /\
    streakOf Sample.g1 w1 = Some s1 /\ streakOf Sample.g1 w2 = Some s1 /\
    totalOf Sample.g1 w2 = Some 7.
Proof.
  apply (streakProcess_progress_twice (Sample.onThu "") Sample.g1
           Sample.sender (Sample.one "null" 2 5) (Sample.running 2 5)).
  - reflexivity.
  - simpl. lia.
  - reflexivity.
Defined.

(** ** Motivation feed *)

Lemma nthZ_in_range {A} (l : list A) (i : Z) :
  0 <= i < Z.of_nat (List.length l) -> exists x, nthZ l i = Some x.
Proof.
  intros [H0 H1]. unfold nthZ.
  destruct (i <? 0) eqn:E; [apply Z.ltb_lt in E; lia|].
  destruct (nth_error l (Z.to_nat i)) as [x|] eqn:En; [exists x; reflexivity|].
  apply nth_error_None in En. lia.
Qed.

Lemma nthZ_In {A} (l : list A) (i : Z) (x : A) : nthZ l i = Some x -> In x l.
Proof.
  unfold nthZ. destruct (i <? 0); [discriminate|]. apply nth_error_In.
Qed.

Lemma next_index_range (i n : Z) :
  0 <= i -> 0 < n -> 0 <= Z.rem (i + 1) n < n.
Proof. intros Hi Hn. apply Z.rem_bound_pos; lia. Qed.

Lemma skipLoop_step fuel imgs index :
  skipLoop (S fuel) imgs index =
  match nthZ imgs index with
  | None => inl TypeError
  | Some im =>
      if skipped im
      then skipLoop fuel imgs (Z.rem (index + 1) (Z.of_nat (List.length imgs)))
      else inr index
  end.
Proof. reflexivity. Qed.

(** When every post is one the loop skips, the loop has not exited
    after any number of rounds. *)
Lemma skipLoop_all_skipped imgs :
  Forall (fun im => skipped im = true) imgs ->
  forall fuel index,
    0 <= index < Z.of_nat (List.length imgs) ->
    skipLoop fuel imgs index = inl Hang.
Proof.
  intros Hall. induction fuel as [|fuel IH]; intros index Hr; [reflexivity|].
  rewrite skipLoop_step.
  destruct (nthZ_in_range imgs index Hr) as [im Him]. rewrite Him.
  rewrite Forall_forall in Hall. rewrite (Hall im (nthZ_In _ _ _ Him)).
  apply IH. apply next_index_range; lia.
Qed.



(** X8: with an empty feed [sendMotivation] sends the home menu and
    stores nothing. *)
Theorem sendMotivation_empty_feed env senderID w u :
  userOf senderID w = Some u ->
  images env = [] ->
  sendMotivation env senderID w =
  Done tt (mkWorld (users w) (goals w) (sent w ++ [Home senderID])).
Proof.
  intros Hu He. unfold sendMotivation, bind, User.findOne, deref, ret.
  unfold userOf in Hu. rewrite Hu, He. reflexivity.
Qed.

Lemma sendMotivation_empty_feed_witness :
  sendMotivation (mkEnv Sample.thu Sample.thu "" false []) Sample.sender
                 (Sample.one "null" 2 5) =
  Done tt (mkWorld [Sample.owner "null" 1 []] [Sample.running 2 5]
                   [Home Sample.sender]).
Proof.
  apply (sendMotivation_empty_feed (mkEnv Sample.thu Sample.thu "" false [])
           Sample.sender (Sample.one "null" 2 5) (Sample.owner "null" 1 [])).
  - reflexivity.
  - reflexivity.
Defined.

(** X9: when every post of the feed is an imgur link that lacks one of
    "png", "jpg" and "jpeg", the skipping loop never exits: the handler
    hangs, having sent and stored nothing. *)
Theorem sendMotivation_hangs env senderID w u :
  userOf senderID w = Some u ->
  0 <= u_lastPicTime u ->
  images env <> [] ->
  Forall (fun im => skipped im = true) (images env) ->
  sendMotivation env senderID w = Abort Hang w.
Proof.
  intros Hu Hp Hne Hall.
  unfold sendMotivation, bind, User.findOne, deref, ret, throw.
  unfold userOf in Hu. rewrite Hu.
  destruct (images env) as [|im0 imgs] eqn:Hi; [contradiction|].
  cbn [List.length Nat.eqb].
  rewrite (skipLoop_all_skipped _ Hall); [reflexivity|].
  apply Z.rem_bound_pos; [exact Hp | cbn [List.length]; lia].
Qed.

Lemma sendMotivation_hangs_witness :
  sendMotivation (Cases.onThuWith Cases.imgurFeed) Sample.sender
                 (Sample.one "null" 2 5)
  = Abort Hang (Sample.one "null" 2 5).
Proof.
  apply (sendMotivation_hangs (Cases.onThuWith Cases.imgurFeed) Sample.sender
           (Sample.one "null" 2 5) (Sample.owner "null" 1 [])).
  - reflexivity.
  - simpl. lia.
  - discriminate.
  - repeat constructor.
Defined.



(** ** Payloads: what the templates encode and the handlers decode *)

Lemma length_append (a b : string) :
  String.length (a ++ b) = (String.length a + String.length b)%nat.
Proof. induction a as [|c a IH]; simpl; [reflexivity | rewrite IH; reflexivity]. Qed.

(** A string has at most as many code units as bytes, and as many when
    it is ASCII. *)
Lemma lengthFrom_units (s : string) : forall astral,
  (JS.lengthFrom astral s <= String.length s)%nat.
Proof.
  induction s as [|c s IH]; intros astral; cbn [JS.lengthFrom String.length];
    [lia|].
  cbv zeta.
  pose proof (IH false) as Hf. pose proof (IH true) as Ht.
  destruct (nat_of_ascii c <? 128)%nat; [lia|].
  destruct (nat_of_ascii c <? 192)%nat; [destruct astral; lia|].
  destruct (nat_of_ascii c <? 240)%nat; lia.
Qed.

Lemma length_units (s : string) : (JS.length s <= String.length s)%nat.
Proof. apply lengthFrom_units. Qed.

Lemma substring_skip (a b : string) :
  String.substring (String.length a) (String.length b) (a ++ b) = b.
Proof. induction a as [|c a IH]; simpl; [apply substring_all | exact IH]. Qed.

Lemma substring_take (a b : string) :
  String.substring 0 (String.length a) (a ++ b) = a.
Proof.
  induction a as [|c a IH]; simpl.
  - destruct b; reflexivity.
  - rewrite IH. reflexivity.
Qed.

(** Cutting a payload after its tag returns what was appended to it. *)
Lemma rest_append (a b : string) : rest (String.length a) (a ++ b) = b.
Proof.
  unfold rest, JS.substring. rewrite length_append.
  rewrite Nat.min_l, Nat.max_r by lia.
  replace (String.length a + String.length b - String.length a)%nat
    with (String.length b) by lia.
  apply substring_skip.
Qed.

(** X11: the three buttons of a goal card decode to their actions on
    that goal: "View Logs" opens the first log page, "Finish Goal" and
    "Delete Goal" ask for the matching confirmation. *)
Theorem sendGoal_buttons_decode goal :
  Forall2
    (fun b action =>
       forall env senderID w,
         receivedPostback env senderID (c_payload b) w = action senderID w)
    (sendGoal_buttons goal)
    [ (fun senderID =>
         result <- Goals.findOne (g_id goal) ;; viewLogs senderID result "0");
      (fun senderID => sendConfirmFinish senderID (g_id goal));
      (fun senderID => sendConfirm senderID (g_id goal)) ].
Proof.
  repeat constructor; intros env senderID w; cbn [c_payload];
    unfold receivedPostback.
  - change (String.eqb ("logs " ++ g_id goal) "Payload new goal") with false.
    change (String.eqb ("logs " ++ g_id goal) "Payload view") with false.
    change (String.eqb ("logs " ++ g_id goal) "Payload progress") with false.
    change (String.eqb (JS.substring 0 4 ("logs " ++ g_id goal)) "logs")
      with true.
    cbv iota. rewrite (rest_append "logs " (g_id goal)
               : rest 5 ("logs " ++ g_id goal) = g_id goal).
    reflexivity.
  - change (String.eqb ("finish " ++ g_id goal) "Payload new goal") with false.
    change (String.eqb ("finish " ++ g_id goal) "Payload view") with false.
    change (String.eqb ("finish " ++ g_id goal) "Payload progress") with false.
    change (String.eqb (JS.substring 0 4 ("finish " ++ g_id goal)) "logs")
      with false.
    change (String.eqb (JS.substring 0 4 ("finish " ++ g_id goal)) "dele")
      with false.
    change (String.eqb (JS.substring 0 6 ("finish " ++ g_id goal)) "finish")
      with true.
    cbv iota. rewrite (rest_append "finish " (g_id goal)
               : rest 7 ("finish " ++ g_id goal) = g_id goal).
    reflexivity.
  - change (String.eqb ("dele " ++ g_id goal) "Payload new goal") with false.
    change (String.eqb ("dele " ++ g_id goal) "Payload view") with false.
    change (String.eqb ("dele " ++ g_id goal) "Payload progress") with false.
    change (String.eqb (JS.substring 0 4 ("dele " ++ g_id goal)) "logs")
      with false.
    change (String.eqb (JS.substring 0 4 ("dele " ++ g_id goal)) "dele")
      with true.
    cbv iota. rewrite (rest_append "dele " (g_id goal)
               : rest 5 ("dele " ++ g_id goal) = g_id goal).
    reflexivity.
Qed.

(** ** Decimal indices *)

Lemma decimalPrefix_digits d : decimalPrefix (NilEmpty.string_of_uint d) = d.
Proof. induction d; simpl; congruence. Qed.

Lemma of_uint_to_uint p : Z.of_uint (Pos.to_uint p) = Z.pos p.
Proof. unfold Z.of_uint. rewrite DecimalPos.Unsigned.of_to. reflexivity. Qed.

(** Nothing is trimmed off a string that starts with an ASCII character
    other than white space. *)
Lemma trimStart_plain c r :
  (nat_of_ascii c <? 128)%nat = true -> isSpace c = false ->
  trimStart (String.String c r) = String.String c r.
Proof.
  intros Ha Hs. apply Nat.ltb_lt in Ha.
  assert (H2 : forall c2, isSpace2 c c2 = false).
  { intros c2. unfold isSpace2.
    destruct (nat_of_ascii c =? 194)%nat eqn:E; [|reflexivity].
    apply Nat.eqb_eq in E. lia. }
  assert (H3 : forall c2 c3, isSpace3 c c2 c3 = false).
  { intros c2 c3. unfold isSpace3. cbv zeta.
    destruct (nat_of_ascii c =? 225)%nat eqn:E1;
      [apply Nat.eqb_eq in E1; lia|].
    destruct (nat_of_ascii c =? 226)%nat eqn:E2;
      [apply Nat.eqb_eq in E2; lia|].
    destruct (nat_of_ascii c =? 227)%nat eqn:E3;
      [apply Nat.eqb_eq in E3; lia|].
    destruct (nat_of_ascii c =? 239)%nat eqn:E4;
      [apply Nat.eqb_eq in E4; lia|].
    reflexivity. }
  cbn [trimStart]. rewrite Hs.
  destruct r as [|c2 [|c3 r]]; try reflexivity.
  - rewrite H2. reflexivity.
  - rewrite H2, H3. reflexivity.
Qed.

Lemma parseInt_plain c r :
  (nat_of_ascii c <? 128)%nat = true -> isSpace c = false ->
  Ascii.eqb c "-" = false -> Ascii.eqb c "+" = false ->
  parseInt (String.String c r) = parseBody 1 (String.String c r).
Proof.
  intros Ha Hs Hm Hp. unfold parseInt. rewrite (trimStart_plain c r Ha Hs).
  rewrite Hm, Hp. reflexivity.
Qed.

Lemma parseInt_minus r : parseInt (String.String "-" r) = parseBody (-1) r.
Proof.
  unfold parseInt. rewrite trimStart_plain by reflexivity. reflexivity.
Qed.

(** The digits of a positive number, read back. *)
Lemma parseBody_positive sign p :
  parseBody sign (NilEmpty.string_of_uint (Pos.to_uint p))
  = Some (sign * Z.pos p).
Proof.
  unfold parseBody. rewrite decimalPrefix_digits.
  pose proof (DecimalPos.Unsigned.to_uint_nonnil p) as Hn.
  rewrite <- (of_uint_to_uint p).
  destruct (Pos.to_uint p) as [|d|d|d|d|d|d|d|d|d|d]; [contradiction|..];
    try reflexivity.
  destruct d; reflexivity.
Qed.

Lemma digits_head p :
  exists c r,
    NilEmpty.string_of_uint (Pos.to_uint p) = String.String c r /\
    (nat_of_ascii c <? 128)%nat = true /\
    isSpace c = false /\ Ascii.eqb c "-" = false /\ Ascii.eqb c "+" = false.
Proof.
  pose proof (DecimalPos.Unsigned.to_uint_nonnil p) as Hn.
  destruct (Pos.to_uint p) as [|d|d|d|d|d|d|d|d|d|d]; [contradiction|..];
    eexists; eexists; repeat split.
Qed.

Lemma String_positive p :
  JS.String (Z.pos p) = NilEmpty.string_of_uint (Pos.to_uint p).
Proof.
  unfold JS.String. cbn [Z.to_int NilZero.string_of_int].
  unfold NilZero.string_of_uint.
  pose proof (DecimalPos.Unsigned.to_uint_nonnil p) as Hn.
  destruct (Pos.to_uint p); [contradiction | reflexivity ..].
Qed.

Lemma String_negative p :
  JS.String (Z.neg p)
  = String.String "-" (NilEmpty.string_of_uint (Pos.to_uint p)).
Proof.
  unfold JS.String. cbn [Z.to_int NilZero.string_of_int].
  unfold NilZero.string_of_uint.
  pose proof (DecimalPos.Unsigned.to_uint_nonnil p) as Hn.
  destruct (Pos.to_uint p); [contradiction | reflexivity ..].
Qed.

(** [parseInt] reads back what [String] writes. *)
Lemma parseInt_String (n : Z) : parseInt (JS.String n) = Some n.
Proof.
  destruct n as [|p|p]; [reflexivity| |].
  - rewrite String_positive.
    destruct (digits_head p) as (c & r & Hb & Ha & Hs & Hm & Hp).
    rewrite Hb, (parseInt_plain c r Ha Hs Hm Hp), <- Hb.
    rewrite parseBody_positive. reflexivity.
  - rewrite String_negative, parseInt_minus, parseBody_positive.
    reflexivity.
Qed.

(** ** Log pages *)

Lemma append_assoc3 (a b c : string) : ((a ++ b) ++ c = a ++ b ++ c)%string.
Proof. induction a as [|x a IH]; simpl; [reflexivity | rewrite IH; reflexivity]. Qed.

Lemma index_bang_digits d :
  String.index 0 "!" (NilEmpty.string_of_uint d) = None.
Proof. induction d; simpl; try rewrite IHd; reflexivity. Qed.

Lemma index_bang_String n : String.index 0 "!" (JS.String n) = None.
Proof.
  destruct n as [|p|p]; [reflexivity| |].
  - rewrite String_positive. apply index_bang_digits.
  - rewrite String_negative. simpl. rewrite index_bang_digits. reflexivity.
Qed.

Lemma index_bang_cons c s :
  String.index 0 "!" (String.String c s) =
  if Ascii.ascii_dec "!" c then Some 0%nat
  else option_map S (String.index 0 "!" s).
Proof.
  cbn [String.index String.prefix].
  destruct (Ascii.ascii_dec "!" c).
  - destruct s; reflexivity.
  - destruct (String.index 0 "!" s); reflexivity.
Qed.

Lemma index_bang_append (a b : string) :
  String.index 0 "!" a = None ->
  String.index 0 "!" (a ++ String.String "!" b) = Some (String.length a).
Proof.
  induction a as [|c a IH]; intros Hn.
  - cbn [String.append]. rewrite index_bang_cons. reflexivity.
  - cbn [String.append String.length].
    rewrite index_bang_cons in Hn |- *.
    destruct (Ascii.ascii_dec "!" c) as [E|E]; [discriminate|].
    destruct (String.index 0 "!" a) as [k|] eqn:Ek; [discriminate|].
    rewrite (IH eq_refl). reflexivity.
Qed.

Lemma head_logs x : JS.substring 0 4 ("logs" ++ x) = "logs".
Proof. unfold JS.substring. simpl. destruct x; reflexivity. Qed.

Lemma index_logs_payload n id :
  String.index 0 "!" ("logs" ++ JS.String n ++ "!" ++ id)
  = Some (4 + String.length (JS.String n))%nat.
Proof.
  change ("logs" ++ JS.String n ++ "!" ++ id)%string
    with ("logs" ++ (JS.String n ++ String.String "!" id))%string.
  cbn [String.append]. rewrite !index_bang_cons.
  rewrite (index_bang_append _ id (index_bang_String n)). reflexivity.
Qed.

(** X12: a "logs" payload built from an index and a goal id is read
    back as that id and that index, whatever the id holds, and the
    quick-reply branch opens the log page of that goal with it.  The
    index is an integer a JavaScript number holds exactly, of magnitude
    below 2^53. *)
Theorem logs_payload_decodes n id :
  Z.abs n < 2 ^ 53 ->
  logsPayload_id ("logs" ++ JS.String n ++ "!" ++ id) = id /\
  logsPayload_text ("logs" ++ JS.String n ++ "!" ++ id) = JS.String n /\
  logsPayload_index ("logs" ++ JS.String n ++ "!" ++ id) = Some n /\
  forall env senderID w,
    quickReply env senderID ("logs" ++ JS.String n ++ "!" ++ id) w =
    (result <- Goals.findOne id ;; viewLogs senderID result (JS.String n)) w.
Proof.
  intros Hexact.
  assert (Hid : logsPayload_id ("logs" ++ JS.String n ++ "!" ++ id) = id).
  { unfold logsPayload_id. rewrite index_logs_payload.
    replace ("logs" ++ JS.String n ++ "!" ++ id)%string
      with (("logs" ++ JS.String n ++ "!") ++ id)%string
      by (rewrite !append_assoc3; reflexivity).
    replace (4 + String.length (JS.String n) + 1)%nat
      with (String.length ("logs" ++ JS.String n ++ "!")).
    - apply rest_append.
    - simpl. rewrite length_append. simpl. lia. }
  assert (Htx : logsPayload_text ("logs" ++ JS.String n ++ "!" ++ id)
                = JS.String n).
  { unfold logsPayload_text. rewrite index_logs_payload.
    unfold JS.substring. rewrite Nat.min_l, Nat.max_r by lia.
    replace (4 + String.length (JS.String n) - 4)%nat
      with (String.length (JS.String n)) by lia.
    simpl. apply substring_take. }
  split; [exact Hid|]. split; [exact Htx|]. split.
  - unfold logsPayload_index. rewrite Htx. apply parseInt_String.
  - intros env senderID w. unfold quickReply.
    rewrite head_logs.
    change (String.eqb "logs" "view") with false.
    change (String.eqb "logs" "prog") with false.
    change (String.eqb "logs" "logs") with true.
    cbv iota. fold (logsPayload_text ("logs" ++ JS.String n ++ "!" ++ id)).
    fold (logsPayload_id ("logs" ++ JS.String n ++ "!" ++ id)).
    rewrite Hid, Htx. reflexivity.
Qed.

Lemma logs_payload_decodes_witness :
  logsPayload_id ("logs5!" ++ Sample.g1) = Sample.g1 /\
  logsPayload_text ("logs5!" ++ Sample.g1) = "5" /\
  logsPayload_index ("logs5!" ++ Sample.g1) = Some 5 /\
  forall env senderID w,
    quickReply env senderID ("logs5!" ++ Sample.g1) w =
    (result <- Goals.findOne Sample.g1 ;; viewLogs senderID result "5") w.
Proof.
  apply (logs_payload_decodes 5 Sample.g1).
  vm_compute. reflexivity.
Defined.

Lemma skipn_nth {A} (l : list A) : forall n x,
  nth_error l n = Some x -> List.skipn n l = x :: List.skipn (S n) l.
Proof.
  induction l as [|y l IH]; intros [|n] x H; simpl in *; try discriminate.
  - injection H as ->. reflexivity.
  - apply IH. exact H.
Qed.

Lemma viewLogs_loop_slice (log : list string) : forall fuel i bound,
  0 <= i -> bound <= Z.of_nat (List.length log) ->
  Z.of_nat fuel = bound - i ->
  viewLogs_loop fuel log i bound
  = List.firstn fuel (List.skipn (Z.to_nat i) log).
Proof.
  induction fuel as [|fuel IH]; intros i bound Hi Hb Hf; [reflexivity|].
  cbn [viewLogs_loop].
  destruct (i <? bound) eqn:E; [|apply Z.ltb_ge in E; lia].
  destruct (nth_error log (Z.to_nat i)) as [x|] eqn:Hx.
  - rewrite (skipn_nth log _ x Hx). cbn [List.firstn].
    unfold item, nthZ.
    destruct (i <? 0) eqn:E0; [apply Z.ltb_lt in E0; lia|].
    rewrite Hx. f_equal.
    rewrite (IH (i + 1) bound) by lia.
    replace (Z.to_nat (i + 1)) with (S (Z.to_nat i)) by lia. reflexivity.
  - apply nth_error_None in Hx. apply Z.ltb_lt in E. lia.
Qed.

(** The page that starts at a non-negative index shows the five log
    entries from that position on, or as many as are left. *)
Lemma viewLogs_lines_slice goal index :
  0 <= index ->
  viewLogs_lines goal (Some index)
  = List.firstn 5 (List.skipn (Z.to_nat index) (g_log goal)).
Proof.
  intros Hi. unfold viewLogs_lines.
  set (log := g_log goal). set (len := Z.of_nat (List.length log)).
  destruct (Z.le_gt_cases (index + 5) len) as [Hfull | Hshort].
  - rewrite Z.min_r by lia.
    replace (Z.to_nat (index + 5 - index)) with 5%nat by lia.
    apply viewLogs_loop_slice; lia.
  - rewrite Z.min_l by lia.
    destruct (Z.le_gt_cases index len) as [Hin | Hout].
    + rewrite viewLogs_loop_slice by (subst len; lia).
      rewrite !List.firstn_all2; [reflexivity | |];
        rewrite List.length_skipn; subst len; lia.
    + replace (Z.to_nat (len - index)) with 0%nat by lia.
      rewrite List.skipn_all2 by (subst len; lia).
      reflexivity.
Qed.

Lemma logs_index_decodes n id :
  logsPayload_index ("logs" ++ JS.String n ++ "!" ++ id) = Some n.
Proof.
  unfold logsPayload_index, logsPayload_text. rewrite index_logs_payload.
  unfold JS.substring. rewrite Nat.min_l, Nat.max_r by lia.
  replace (4 + String.length (JS.String n) - 4)%nat
    with (String.length (JS.String n)) by lia.
  cbn [String.append String.substring]. rewrite substring_take.
  apply parseInt_String.
Qed.

(** "View Next Logs" is offered exactly when entries are left beyond
    the page, and its payload decodes to the index five further on. *)
Lemma nextIndex_spec goal index :
  nextIndex goal index =
  if index + 5 <? Z.of_nat (List.length (g_log goal))
  then Some (index + 5) else None.
Proof.
  unfold nextIndex, viewLogs_replies.
  destruct (index + 5 <? Z.of_nat (List.length (g_log goal)));
    destruct (0 <=? index - 5); cbn [List.find c_title c_payload];
    try reflexivity;
    change (String.eqb "View Previous Logs" "View Next Logs") with false;
    change (String.eqb "View Next Logs" "View Next Logs") with true;
    cbv iota; try apply logs_index_decodes; reflexivity.
Qed.



Lemma browse_from goal : forall taps index,
  0 <= index ->
  Z.of_nat (List.length (g_log goal)) - index <= 5 * (Z.of_nat taps + 1) ->
  browse taps goal index = List.skipn (Z.to_nat index) (g_log goal).
Proof.
  induction taps as [|taps IH]; intros index Hi Hlen.
  - cbn [browse]. rewrite List.app_nil_r, viewLogs_lines_slice by exact Hi.
    apply List.firstn_all2. rewrite List.length_skipn. lia.
  - cbn [browse]. rewrite viewLogs_lines_slice by exact Hi.
    rewrite nextIndex_spec.
    destruct (index + 5 <? Z.of_nat (List.length (g_log goal))) eqn:E.
    + apply Z.ltb_lt in E. rewrite IH by lia.
      replace (Z.to_nat (index + 5)) with (5 + Z.to_nat index)%nat by lia.
      rewrite <- List.skipn_skipn. apply List.firstn_skipn.
    + apply Z.ltb_ge in E. rewrite List.app_nil_r.
      apply List.firstn_all2. rewrite List.length_skipn. lia.
Qed.

(** X14: opening the first log page and tapping "View Next Logs" until
    it is no longer offered shows every log entry once, in the stored
    order; one tap per entry is always enough. *)
Theorem browse_shows_whole_log goal :
  browse (List.length (g_log goal)) goal 0 = g_log goal.
Proof.
  rewrite (browse_from goal (List.length (g_log goal)) 0) by lia.
  reflexivity.
Qed.

(** ** Confirmations and lists *)

(** X15: the "No" reply of either confirmation decodes to a cancel:
    two replies are sent and nothing is stored. *)
Theorem declined_confirmation id :
  In (mkChoice "No" ("no   " ++ id)) (sendConfirm_replies id) /\
  In (mkChoice "No" ("nf   " ++ id)) (sendConfirmFinish_replies id) /\
  (forall env senderID w,
     quickReply env senderID ("no   " ++ id) w =
     Done tt (mkWorld (users w) (goals w)
                (sent w ++ [TextMessage senderID
                              "Deleting canceled, going to home...";
                            Home senderID]))) /\
  (forall env senderID w,
     quickReply env senderID ("nf   " ++ id) w =
     Done tt (mkWorld (users w) (goals w)
                (sent w ++ [TextMessage senderID
                              "Finishing canceled, going to home...";
                            Home senderID]))).
Proof.
  split; [right; left; reflexivity|]. split; [right; left; reflexivity|].
  split; intros env senderID w; unfold quickReply.
  - change (String.eqb (JS.substring 0 4 ("no   " ++ id)) "view") with false.
    change (String.eqb (JS.substring 0 4 ("no   " ++ id)) "prog") with false.
    change (String.eqb (JS.substring 0 4 ("no   " ++ id)) "logs") with false.
    change (String.eqb (JS.substring 0 4 ("no   " ++ id)) "no  ") with true.
    cbv iota. unfold bind, sendTextMessage, sendHome, callSendAPI.
    cbn [users goals sent]. rewrite <- app_assoc. reflexivity.
  - change (String.eqb (JS.substring 0 4 ("nf   " ++ id)) "view") with false.
    change (String.eqb (JS.substring 0 4 ("nf   " ++ id)) "prog") with false.
    change (String.eqb (JS.substring 0 4 ("nf   " ++ id)) "logs") with false.
    change (String.eqb (JS.substring 0 4 ("nf   " ++ id)) "no  ") with false.
    change (String.eqb (JS.substring 0 4 ("nf   " ++ id)) "nf  ") with true.
    cbv iota. unfold bind, sendTextMessage, sendHome, callSendAPI.
    cbn [users goals sent]. rewrite <- app_assoc. reflexivity.
Qed.

Lemma findOne_removed {A} (p : A -> bool) (c : list A) :
  Coll.findOne p (Coll.remove p c) = None.
Proof.
  induction c as [|x c IH]; simpl; [reflexivity|].
  destruct (p x) eqn:E; simpl; [exact IH | rewrite E; exact IH].
Qed.

Lemma findOne_remove_other {A} (p q : A -> bool) (c : list A) :
  (forall x, q x = true -> p x = false) ->
  Coll.findOne q (Coll.remove p c) = Coll.findOne q c.
Proof.
  intros Hpq. induction c as [|x c IH]; simpl; [reflexivity|].
  destruct (p x) eqn:E; simpl.
  - destruct (q x) eqn:Eq; [rewrite (Hpq x Eq) in E; discriminate | exact IH].
  - rewrite IH. reflexivity.
Qed.

Lemma byId_apart id id' g : id' <> id -> byId id' g = true -> byId id g = false.
Proof.
  unfold byId. intros Hne H. apply String.eqb_eq in H.
  apply String.eqb_neq. congruence.
Qed.

(** X16: the "Yes" reply of the delete confirmation, when the store
    reports no error, removes every goal with that id, leaves the goals
    with other ids as they are, lowers the sender's count by one and
    sends the "Goal deleted!" reply and the home menu. *)
Theorem confirmed_delete env senderID id w u :
  removeErr env = false ->
  userOf senderID w = Some u ->
  In (mkChoice "Yes" ("yes  " ++ id)) (sendConfirm_replies id) /\
  exists w',
    quickReply env senderID ("yes  " ++ id) w = Done tt w' /\
    Coll.findOne (byId id) (goals w') = None /\
    (forall id', id' <> id ->
       Coll.findOne (byId id') (goals w') = Coll.findOne (byId id') (goals w)) /\
    option_map u_numGoals (userOf senderID w') = Some (u_numGoals u - 1) /\
    sent w' = (sent w ++ [TextMessage senderID "Goal deleted! Going to home...";
                          Home senderID])%list.
Proof.
  intros He Hu. split; [left; reflexivity|].
  eexists. split.
  - unfold quickReply.
    change (String.eqb (JS.substring 0 4 ("yes  " ++ id)) "view") with false.
    change (String.eqb (JS.substring 0 4 ("yes  " ++ id)) "prog") with false.
    change (String.eqb (JS.substring 0 4 ("yes  " ++ id)) "logs") with false.
    change (String.eqb (JS.substring 0 4 ("yes  " ++ id)) "no  ") with false.
    change (String.eqb (JS.substring 0 4 ("yes  " ++ id)) "nf  ") with false.
    change (String.eqb (JS.substring 0 4 ("yes  " ++ id)) "yes ") with true.
    cbv iota. rewrite rest_yes.
    unfold bind, Goals.remove, User.findOne, User.update, deref, ret,
      sendTextMessage, sendHome, callSendAPI.
    rewrite He. cbn [negb users goals sent].
    unfold userOf in Hu. rewrite Hu. cbn [users goals sent]. reflexivity.
  - cbn [users goals sent]. split; [apply findOne_removed|]. split.
    + intros id' Hne. apply findOne_remove_other.
      intros x Hx. exact (byId_apart id id' x Hne Hx).
    + split; [|rewrite <- app_assoc; reflexivity].
      rewrite userOf_update by reflexivity.
      unfold userOf in *. cbn [users]. rewrite Hu. reflexivity.
Qed.

Lemma confirmed_delete_witness :
  In (mkChoice "Yes" ("yes  " ++ Sample.g1)) (sendConfirm_replies Sample.g1) /\
  exists w',
    quickReply (Sample.onThu "") Sample.sender ("yes  " ++ Sample.g1)
               (Sample.one "null" 2 5) = Done tt w' /\
    Coll.findOne (byId Sample.g1) (goals w') = None /\
    (forall id', id' <> Sample.g1 ->
       Coll.findOne (byId id') (goals w')
       = Coll.findOne (byId id') (goals (Sample.one "null" 2 5))) /\
    option_map u_numGoals (userOf Sample.sender w') = Some 0 /\
    sent w' = [TextMessage Sample.sender "Goal deleted! Going to home...";
               Home Sample.sender].
Proof.
  apply (confirmed_delete (Sample.onThu "") Sample.sender Sample.g1
           (Sample.one "null" 2 5) (Sample.owner "null" 1 [])).
  - reflexivity.
  - reflexivity.
Defined.

Lemma rest_view id : rest 5 ("view " ++ id) = id.
Proof. exact (rest_append "view " id). Qed.

(** X17: every goal of a list gets a quick reply titled with its name
    whose payload decodes to that goal: in a "view" list to the goal
    card, in a "prog" list, when the store still holds the goal, to the
    streak engine in progress mode, the move to the logging state of
    that goal and the prompt for a log text. *)
Theorem sendList_replies_decode result finishedOption g :
  In g result ->
  In (mkChoice (g_name g) ("view " ++ g_id g))
     (sendList_replies result "view" finishedOption) /\
  In (mkChoice (g_name g) ("prog " ++ g_id g))
     (sendList_replies result "prog" finishedOption) /\
  (forall env senderID w,
     quickReply env senderID ("view " ++ g_id g) w =
     (r <- Goals.findOne (g_id g) ;; sendGoal senderID r) w) /\
  (forall env senderID w g0,
     Coll.findOne (byId (g_id g)) (goals w) = Some g0 ->
     quickReply env senderID ("prog " ++ g_id g) w =
     Done tt
       (mkWorld
          (Coll.update (byName senderID)
             (set_status ("logging_goal" ++ g_id g)%string) (users w))
          (Coll.update (byId (g_id g)) (fun _ => stepGoal env "prog" g0)
             (goals w))
          (sent w ++ [TextMessage senderID "Add a log message to your goal!"]))).
Proof.
  intros Hin. unfold sendList_replies. repeat split.
  - apply in_or_app. left.
    apply (in_map (fun g => mkChoice (g_name g) ("view " ++ g_id g)) _ _ Hin).
  - apply in_or_app. left.
    apply (in_map (fun g => mkChoice (g_name g) ("prog " ++ g_id g)) _ _ Hin).
  - intros env senderID w. unfold quickReply.
    change (String.eqb (JS.substring 0 4 ("view " ++ g_id g)) "view") with true.
    cbv iota. rewrite rest_view. reflexivity.
  - intros env senderID w g0 Hg0. apply quickReply_prog. exact Hg0.
Qed.

Lemma sendList_replies_decode_witness :
  In (mkChoice "Run" ("view " ++ Sample.g1))
     (sendList_replies [Sample.running 2 5] "view" true) /\
  In (mkChoice "Run" ("prog " ++ Sample.g1))
     (sendList_replies [Sample.running 2 5] "prog" true) /\
  (forall env senderID w,
     quickReply env senderID ("view " ++ Sample.g1) w =
     (r <- Goals.findOne Sample.g1 ;; sendGoal senderID r) w) /\
  quickReply (Sample.onThu "") Sample.sender ("prog " ++ Sample.g1)
    (Sample.one "null" 2 5) =
  Done tt
    (mkWorld [Sample.owner ("logging_goal" ++ Sample.g1) 1 []]
       [mkGoal Sample.g1 Sample.sender "Run" 3 []
          (inject_Z (getTime Sample.thu)) (getDay Sample.thu) 6]
       [TextMessage Sample.sender "Add a log message to your goal!"]).
Proof.
  destruct (sendList_replies_decode [Sample.running 2 5] true
              (Sample.running 2 5)) as (Hv & Hp & Hcard & Hprog).
  - left. reflexivity.
  - split; [exact Hv|]. split; [exact Hp|]. split; [exact Hcard|].
    exact (Hprog (Sample.onThu "") Sample.sender (Sample.one "null" 2 5)
             (Sample.running 2 5) eq_refl).
Defined.

(** X18: the "Finished Goals" quick reply that a "view" list offers
    carries the payload "Payload finished", which the quick-reply branch
    does not decode: for a known sender the tap sends nothing and stores
    nothing, whatever text comes with it.  Only a postback with that
    payload lists finished goals. *)
Theorem finished_reply_not_decoded env senderID w u result txt :
  userOf senderID w = Some u ->
  In (mkChoice "Finished Goals" "Payload finished")
     (sendList_replies result "view" true) /\
  handle env (MessageEvent senderID
                (mkMessage false (Some "Payload finished") txt)) w
  = Done tt w.
Proof.
  intros Hu. split.
  - unfold sendList_replies. apply in_or_app. right. left. reflexivity.
  - unfold handle, receivedMessage, bind, User.findOne, ret.
    unfold userOf in Hu. rewrite Hu. reflexivity.
Qed.

Lemma finished_reply_not_decoded_witness :
  In (mkChoice "Finished Goals" "Payload finished")
     (sendList_replies [Sample.running 2 5] "view" true) /\
  handle (Sample.onThu "")
         (MessageEvent Sample.sender
            (mkMessage false (Some "Payload finished")
                       (Some "Finished Goals")))
         (Sample.one "null" 2 5)
  = Done tt (Sample.one "null" 2 5).
Proof.
  apply (finished_reply_not_decoded (Sample.onThu "") Sample.sender
           (Sample.one "null" 2 5) (Sample.owner "null" 1 [])
           [Sample.running 2 5] (Some "Finished Goals")).
  reflexivity.
Defined.

(** ** Every run is made of basic effects *)

Lemma steps_bind {A B} (m : M A) (k : A -> M B) :
  steps m -> (forall a, steps (k a)) -> steps (bind m k).
Proof.
  intros Hm Hk w. unfold bind. specialize (Hm w).
  destruct (m w) as [a w'|e w']; simpl in Hm.
  - apply (ws_trans _ _ _ Hm). apply Hk.
  - exact Hm.
Qed.

Lemma steps_ret {A} (a : A) : steps (ret a).
Proof. intros w. apply ws_refl. Qed.

Lemma steps_throw {A} e : steps (@throw A e).
Proof. intros w. apply ws_refl. Qed.

Lemma steps_deref {A} (r : option A) : steps (deref r).
Proof. destruct r; [apply steps_ret | apply steps_throw]. Qed.

Lemma steps_User_findOne s : steps (User.findOne s).
Proof. intros w. apply ws_refl. Qed.

Lemma steps_Goals_findOne id : steps (Goals.findOne id).
Proof. intros w. apply ws_refl. Qed.

Lemma steps_Goals_findOneNamed s nm : steps (Goals.findOneNamed s nm).
Proof. intros w. apply ws_refl. Qed.

Lemma steps_Goals_find s : steps (Goals.find s).
Proof. intros w. apply ws_refl. Qed.

Lemma steps_User_update s f : keepsUser f -> steps (User.update s f).
Proof. intros Hf w. apply ws_user. exact Hf. Qed.

Lemma steps_User_updateById id f : keepsUser f -> steps (User.updateById id f).
Proof. intros Hf w. apply ws_user. exact Hf. Qed.

Lemma steps_Goals_remove env id : steps (Goals.remove env id).
Proof.
  intros w. unfold Goals.remove.
  destruct (removeErr env); [apply ws_refl | apply ws_remove].
Qed.

Lemma steps_callSendAPI r : steps (callSendAPI r).
Proof. intros w. apply ws_send. Qed.

Lemma keeps_status v : keepsUser (set_status v).
Proof. intros u. repeat split. Qed.
Lemma keeps_numGoals v : keepsUser (set_numGoals v).
Proof. intros u. repeat split. Qed.
Lemma keeps_lastPicTime v : keepsUser (set_lastPicTime v).
Proof. intros u. repeat split. Qed.
Lemma keeps_u_log v : keepsUser (set_u_log v).
Proof. intros u. repeat split. Qed.

Lemma update_absent {A} (p : A -> bool) (f : A -> A) (c : list A) :
  Coll.findOne p c = None -> Coll.update p f c = c.
Proof.
  induction c as [|x c IH]; simpl; [reflexivity|].
  destruct (p x); [discriminate|]. intros H. rewrite (IH H). reflexivity.
Qed.

Lemma steps_streakProcess env id type s : steps (streakProcess env id type s).
Proof.
  intros w. destruct (Coll.findOne (byId id) (goals w)) as [g|] eqn:Hf.
  - rewrite (streakProcess_update env id type s w g Hf). apply ws_engine.
  - unfold streakProcess, bind, Goals.findOne, deref, throw. rewrite Hf.
    apply ws_refl.
Qed.

Ltac leaf :=
  first
    [ apply steps_ret | apply steps_throw | apply steps_deref
    | apply steps_User_findOne | apply steps_Goals_findOne
    | apply steps_Goals_findOneNamed | apply steps_Goals_find
    | apply steps_Goals_remove | apply steps_callSendAPI
    | apply steps_streakProcess
    | apply steps_User_update;
      first [ apply keeps_status | apply keeps_numGoals
            | apply keeps_lastPicTime | apply keeps_u_log ]
    | apply steps_User_updateById; apply keeps_u_log ].

Lemma steps_sendTextMessage s t : steps (sendTextMessage s t).
Proof. apply steps_callSendAPI. Qed.
Lemma steps_sendHome s : steps (sendHome s).
Proof. apply steps_callSendAPI. Qed.
Lemma steps_sendHomeMessage s t : steps (sendHomeMessage s t).
Proof. apply steps_callSendAPI. Qed.
Lemma steps_sendImageMessage s u : steps (sendImageMessage s u).
Proof. apply steps_callSendAPI. Qed.
Lemma steps_sendGenericMessage s : steps (sendGenericMessage s).
Proof. apply steps_callSendAPI. Qed.
Lemma steps_sendTest s : steps (sendTest s).
Proof. apply steps_callSendAPI. Qed.

Ltac sends :=
  first [ apply steps_sendTextMessage | apply steps_sendHome
        | apply steps_sendHomeMessage | apply steps_sendImageMessage
        | apply steps_sendGenericMessage | apply steps_sendTest ].

Ltac stroll :=
  repeat first
    [ sends | leaf
    | apply steps_bind; [ | intro ]
    | match goal with
      | |- steps (if ?b then _ else _) => destruct b
      | |- steps (match ?x with _ => _ end) => destruct x
      end ].

Lemma steps_sendMotivation env s : steps (sendMotivation env s).
Proof. unfold sendMotivation. cbv zeta. stroll. Qed.

Lemma steps_makeGoal s : steps (makeGoal s).
Proof. unfold makeGoal. stroll. Qed.

Lemma steps_sendList s result type : steps (sendList s result type).
Proof. unfold sendList. stroll. Qed.

Lemma steps_sendGoal s g : steps (sendGoal s g).
Proof. unfold sendGoal. stroll. Qed.

Lemma steps_viewLogs s g i : steps (viewLogs s g i).
Proof. unfold viewLogs. stroll. Qed.

Lemma steps_sendConfirm s id : steps (sendConfirm s id).
Proof. unfold sendConfirm. stroll. Qed.

Lemma steps_sendConfirmFinish s id : steps (sendConfirmFinish s id).
Proof. unfold sendConfirmFinish. stroll. Qed.

Lemma steps_forEach {A} (l : list A) (f : A -> M unit) :
  (forall x, steps (f x)) -> steps (forEach l f).
Proof.
  intros Hf. induction l as [|x l IH]; cbn [forEach].
  - apply steps_ret.
  - apply steps_bind; [apply Hf | intros _; exact IH].
Qed.

Lemma steps_getList env s type : steps (getList env s type).
Proof.
  unfold getList.
  apply steps_bind; [leaf | intros result].
  destruct (List.length result =? 0)%nat; [stroll|].
  apply steps_bind; [apply steps_forEach; intros g; leaf | intros _].
  apply steps_bind; [leaf | intros result'].
  destruct (List.length result' =? 0)%nat; [stroll | apply steps_sendList].
Qed.

Lemma steps_logGoal env s id t : steps (logGoal env s id t).
Proof.
  intros w.
  destruct (96 <? JS.length t)%nat eqn:Elen;
    [unfold logGoal; rewrite Elen; apply steps_sendTextMessage|].
  destruct (Coll.findOne (byId id) (goals w)) as [g|] eqn:Hg;
    [apply Nat.ltb_ge in Elen | unfold logGoal; rewrite Elen].
  - destruct w as [us gs ss]. cbn [goals] in Hg.
    rewrite (logGoal_accepts env s id t us gs ss g Elen Hg).
    eapply ws_trans; [|apply steps_sendMotivation].
    eapply ws_trans; [apply (ws_log _ id (now env) t Elen)|].
    cbn [users goals sent].
    eapply ws_trans; [apply (ws_user _ (byName s) _ (keeps_status "null"))|].
    cbn [users goals sent].
    replace (Coll.update (byId id)
               (fun g0 => set_g_log (logEntry (now env) t :: g_log g0) g0) gs)
      with (Coll.update (byId id)
              (set_g_log ((JS.String (getMonth (now env)) ++ "/" ++
                           JS.String (getDate (now env)) ++ " " ++ t)%string
                          :: g_log g)) gs)
      by (apply update_ext with (a := g); [exact Hg | reflexivity]).
    apply (ws_send (mkWorld _ _ ss)).
  - unfold bind, Goals.findOne, deref, throw. rewrite Hg. apply ws_refl.
Qed.

Lemma steps_nameGoal env s t : steps (nameGoal env s t).
Proof.
  intros w. unfold nameGoal. cbv zeta.
  destruct (100 <? JS.length (capitalize t))%nat eqn:Elen;
    [apply steps_sendTextMessage|].
  apply Nat.ltb_ge in Elen.
  unfold bind at 1. unfold Goals.findOneNamed at 1.
  destruct (Coll.findOne (byOwnerName s (capitalize t)) (goals w))
    as [g|] eqn:Hg.
  - assert (H : steps
              (r <- User.findOne s ;;
               sendTextMessage s
                 "Goal with that name has already been created. Try another name." ;;
               result <- deref r ;;
               User.update s (set_numGoals (u_numGoals result + 1)) ;;
               sendTextMessage s "What is the name of your goal?"))
      by stroll.
    exact (H w).
  - assert (H : forall r, steps
              (result <- deref r ;;
               User.update s (set_numGoals (u_numGoals result + 1)) ;;
               User.update s (set_status "null") ;;
               sendTextMessage s "What is the name of your goal?" ;;
               sendTextMessage s
                 ("Goal " ++ capitalize t ++
                  " Added. Be sure to add progress to it every day to build up your goal streak! Going to home...")%string ;;
               sendHome s))
      by (intros r; stroll).
    eapply ws_trans; [apply (ws_create w env s (capitalize t) Elen Hg)|].
    exact (H (Coll.findOne (byName s) (users w))
             (mkWorld (users w)
                (Coll.save (newGoal env s (capitalize t)) (goals w))
                (sent w))).
Qed.

Lemma steps_receivedPostback env s payload :
  steps (receivedPostback env s payload).
Proof.
  unfold receivedPostback. cbv zeta.
  repeat match goal with
         | |- steps (if ?b then _ else _) => destruct b
         end;
    first [ apply steps_makeGoal | apply steps_getList
          | apply steps_sendConfirm | apply steps_sendConfirmFinish
          | idtac ];
    repeat first
      [ apply steps_viewLogs | sends | leaf
      | apply steps_bind; [ | intro ] ].
Qed.

Lemma steps_quickReply env s payload : steps (quickReply env s payload).
Proof.
  unfold quickReply. cbv zeta.
  repeat match goal with
         | |- steps (if String.eqb _ _ then _ else _) =>
             destruct (String.eqb _ _)
         end;
    repeat first
      [ apply steps_sendGoal | apply steps_viewLogs | sends | leaf
      | apply steps_bind; [ | intro ]
      | match goal with
        | |- steps (if ?b then _ else _) => destruct b
        end ].
Qed.

Lemma steps_textMessage env s t found : steps (textMessage env s t found).
Proof.
  unfold textMessage. cbv zeta. destruct found as [result|]; [|apply steps_ret].
  apply steps_bind.
  - destruct (String.eqb (u_status result) "naming_goal");
      [apply steps_nameGoal|].
    destruct (String.eqb _ "logging_goal");
      [apply steps_logGoal | apply steps_ret].
  - intros _. stroll.
Qed.

(** The save of a new user, where the sender has no document. *)
Lemma steps_newUser env s (k : M unit) w :
  Coll.findOne (byName s) (users w) = None ->
  steps k ->
  worldStep w (world_of ((User.save (newUser env s) ;; k) w)).
Proof.
  intros Hu Hk. unfold bind, User.save.
  eapply ws_trans; [apply (ws_newUser w (freshId env) s Hu)|]. apply Hk.
Qed.

(** The same after a computation of basic effects that touches no
    user. *)
Lemma steps_before {A} (m : M A) (k : A -> M unit) s w :
  Coll.findOne (byName s) (users w) = None ->
  steps m ->
  users (world_of (m w)) = users w ->
  (forall a w', Coll.findOne (byName s) (users w') = None ->
                worldStep w' (world_of (k a w'))) ->
  worldStep w (world_of ((a <- m ;; k a) w)).
Proof.
  intros Hu Hm Hus Hk. unfold bind. specialize (Hm w).
  destruct (m w) as [a w'|e w']; cbn [world_of] in *.
  - apply (ws_trans _ _ _ Hm). apply Hk. rewrite Hus. exact Hu.
  - exact Hm.
Qed.

Lemma steps_welcome s : steps (welcome s).
Proof. unfold welcome. stroll. Qed.

Lemma steps_quickReplyNew env s payload w :
  Coll.findOne (byName s) (users w) = None ->
  worldStep w (world_of (quickReplyNew env s payload w)).
Proof.
  intros Hu. unfold quickReplyNew. cbv zeta.
  repeat match goal with
         | |- context [if String.eqb ?a ?b then _ else _] =>
             destruct (String.eqb a b)
         end.
  - apply steps_newUser; [exact Hu|].
    repeat first [ apply steps_sendGoal | apply steps_welcome | leaf
                 | apply steps_bind; [ | intro ] ].
  - apply steps_before with (s := s); [exact Hu | leaf | |].
    + cbn [User.update world_of users]. apply update_absent. exact Hu.
    + intros _ w' Hu'. apply steps_newUser; [exact Hu'|].
      repeat first [ apply steps_welcome | sends | leaf
                   | apply steps_bind; [ | intro ] ].
  - apply steps_newUser; [exact Hu|].
    repeat first [ apply steps_viewLogs | apply steps_welcome | leaf
                 | apply steps_bind; [ | intro ] ].
  - apply steps_before with (s := s); [exact Hu | sends | reflexivity |].
    intros _ w1 Hu1. apply steps_before with (s := s); [exact Hu1 | sends | reflexivity |].
    intros _ w2 Hu2. apply steps_newUser; [exact Hu2 | apply steps_welcome].
  - apply steps_before with (s := s); [exact Hu | sends | reflexivity |].
    intros _ w1 Hu1. apply steps_before with (s := s); [exact Hu1 | sends | reflexivity |].
    intros _ w2 Hu2. apply steps_newUser; [exact Hu2 | apply steps_welcome].
  - apply steps_before with (s := s); [exact Hu | leaf | |].
    + unfold Goals.remove. destruct (removeErr env); reflexivity.
    + intros err w1 Hu1. apply steps_newUser; [exact Hu1|].
      destruct (negb err);
        repeat first [ apply steps_welcome | sends | leaf
                     | apply steps_bind; [ | intro ] ].
  - apply steps_before with (s := s); [exact Hu | leaf | reflexivity |].
    intros g w1 Hu1. apply steps_newUser; [exact Hu1|].
    repeat first [ apply steps_welcome | sends | leaf
                 | apply steps_bind; [ | intro ]
                 | match goal with
                   | |- steps (if ?b then _ else _) => destruct b
                   end ].
  - apply steps_before with (s := s); [exact Hu | sends | reflexivity |].
    intros _ w1 Hu1. apply steps_newUser; [exact Hu1 | apply steps_welcome].
  - apply steps_newUser; [exact Hu | apply steps_welcome].
Qed.

Lemma steps_receivedMessage env s message :
  steps (receivedMessage env s message).
Proof.
  intros w. unfold receivedMessage.
  unfold bind at 1. unfold User.findOne at 1.
  destruct (Coll.findOne (byName s) (users w)) as [u|] eqn:Hu.
  - destruct (is_echo message); [apply steps_ret|].
    destruct (quick_reply message); [apply steps_quickReply|].
    destruct (text message) as [[|c t]|];
      [apply steps_sendHome | apply steps_textMessage | apply steps_sendHome].
  - destruct (is_echo message);
      [apply steps_newUser; [exact Hu | apply steps_welcome]|].
    destruct (quick_reply message) as [payload|];
      [apply steps_quickReplyNew; exact Hu|].
    destruct (text message) as [[|c t]|].
    + apply steps_before with (s := s); [exact Hu | sends | reflexivity |].
      intros _ w1 Hu1. apply steps_newUser; [exact Hu1 | apply steps_welcome].
    + apply steps_newUser; [exact Hu|].
      apply steps_bind; [apply steps_textMessage | intros _; apply steps_welcome].
    + apply steps_before with (s := s); [exact Hu | sends | reflexivity |].
      intros _ w1 Hu1. apply steps_newUser; [exact Hu1 | apply steps_welcome].
Qed.

Lemma steps_handle env ev : steps (handle env ev).
Proof.
  destruct ev; [apply steps_receivedMessage | apply steps_receivedPostback].
Qed.

Lemma steps_run evs : steps (run evs).
Proof.
  induction evs as [|[env ev] evs IH]; cbn [run].
  - apply steps_ret.
  - apply steps_bind; [apply steps_handle | intros _; exact IH].
Qed.

(** X19: whatever the events and their environments, and whether a
    handler completes or not, the world a delivery ends with is reached
    from the one it started in by basic effects only: a reply appended,
    a user field other than [_id], [name] and [finished] set, a default
    user added for an unknown sender, a goal stepped by the streak
    engine, a log entry of at most 96 code units prepended, goals
    removed by id, or a new goal with a name of at most 100 code units
    that its owner had not used. *)
Theorem run_is_basic_effects evs w :
  worldStep w (world_of (run evs w)).
Proof.
  revert w. induction evs as [|[env ev] evs IH]; intros w; cbn [run].
  - apply ws_refl.
  - unfold bind. pose proof (steps_handle env ev w) as Hh.
    destruct (handle env ev w) as [[] w1|e w1]; cbn [world_of] in Hh.
    + exact (ws_trans _ _ _ Hh (IH w1)).
    + exact Hh.
Qed.

(** ** Invariants of the store *)

Lemma Forall_update {A} (P : A -> Prop) (p : A -> bool) (f : A -> A) c :
  (forall x, P x -> P (f x)) -> Forall P c -> Forall P (Coll.update p f c).
Proof.
  intros Hf H. induction H as [|x c Hx Hc IH]; simpl; [constructor|].
  destruct (p x); constructor; auto.
Qed.

Lemma Forall_remove {A} (P : A -> Prop) (p : A -> bool) c :
  Forall P c -> Forall P (Coll.remove p c).
Proof.
  intros H. induction H as [|x c Hx Hc IH]; simpl; [constructor|].
  unfold Coll.remove in *. simpl. destruct (negb (p x)); [constructor|]; auto.
Qed.

Lemma Forall_save {A} (P : A -> Prop) (x : A) c :
  P x -> Forall P c -> Forall P (Coll.save x c).
Proof.
  intros Hx Hc. unfold Coll.save. apply Forall_app. split; [exact Hc|].
  constructor; [exact Hx | constructor].
Qed.

Lemma stepGoal_name env type g : g_name (stepGoal env type g) = g_name g.
Proof.
  pose proof (stepGoal_kept env type g) as H. unfold kept in H. congruence.
Qed.

Lemma stepGoal_user env type g : g_user (stepGoal env type g) = g_user g.
Proof.
  pose proof (stepGoal_kept env type g) as H. unfold kept in H. congruence.
Qed.

(** X20: through every delivery, whatever its events, each goal keeps
    a streak and a total of 0 or more. *)
Theorem run_keeps_counters evs w :
  allCounted w -> allCounted (world_of (run evs w)).
Proof.
  pose proof (steps_run evs w) as Hs. revert Hs.
  generalize (world_of (run evs w)). intros b Hs.
  unfold allCounted. induction Hs; cbn [goals]; intros Ha; auto.
  - apply Forall_update; [intros x; apply stepGoal_counted | exact Ha].
  - apply Forall_update; [intros x Hx; exact Hx | exact Ha].
  - apply Forall_remove. exact Ha.
  - apply Forall_save; [apply newGoal_counted | exact Ha].
Qed.

Lemma run_keeps_counters_witness :
  allCounted (world_of (run Sample.sixGoals Sample.empty)).
Proof.
  apply (run_keeps_counters Sample.sixGoals Sample.empty).
  constructor.
Defined.

(** X21: through every delivery, every stored goal name has at most
    100 code units, the measure [nameGoal] tests. *)
Theorem run_keeps_names_short evs w :
  namesShort w -> namesShort (world_of (run evs w)).
Proof.
  pose proof (steps_run evs w) as Hs. revert Hs.
  generalize (world_of (run evs w)). intros b Hs.
  unfold namesShort. induction Hs; cbn [goals]; intros Ha; auto.
  - apply Forall_update; [|exact Ha].
    intros x Hx. rewrite stepGoal_name. exact Hx.
  - apply Forall_update; [intros x Hx; exact Hx | exact Ha].
  - apply Forall_remove. exact Ha.
  - apply Forall_save; [assumption | exact Ha].
Qed.

Lemma run_keeps_names_short_witness :
  namesShort (world_of (run Sample.sixGoals Sample.empty)).
Proof.
  apply (run_keeps_names_short Sample.sixGoals Sample.empty).
  constructor.
Defined.

Lemma NoDup_map_remove {A B} (h : A -> B) (p : A -> bool) c :
  NoDup (List.map h c) -> NoDup (List.map h (Coll.remove p c)).
Proof.
  unfold Coll.remove. induction c as [|x c IH]; simpl; [auto|].
  intros H. inversion H as [|y l Hy Hl]; subst.
  destruct (negb (p x)); simpl; [|auto].
  constructor; [|auto].
  intros Hin. apply Hy. apply in_map_iff in Hin.
  destruct Hin as (z & Hz & Hzin). apply filter_In in Hzin.
  apply in_map_iff. exists z. tauto.
Qed.

Lemma NoDup_snoc {B} (l : list B) (y : B) :
  NoDup l -> ~ In y l -> NoDup (l ++ [y]).
Proof.
  intros Hl Hy. induction Hl as [|x l Hx Hl IH]; simpl.
  - constructor; [intros [] | constructor].
  - constructor.
    + intros Hin. apply in_app_or in Hin. destruct Hin as [Hin | [E | []]].
      * contradiction.
      * apply Hy. left. symmetry. exact E.
    + apply IH. intros Hin. apply Hy. right. exact Hin.
Qed.

Lemma findOne_none {A} (p : A -> bool) c x :
  Coll.findOne p c = None -> In x c -> p x = false.
Proof. intros H Hin. exact (List.find_none p c H x Hin). Qed.

Lemma unused_name s nm gs :
  Coll.findOne (byOwnerName s nm) gs = None ->
  ~ In (s, nm) (List.map (fun g => (g_user g, g_name g)) gs).
Proof.
  intros Hn Hin. apply in_map_iff in Hin. destruct Hin as (g & Hg & Hin).
  pose proof (findOne_none _ _ g Hn Hin) as Hf.
  injection Hg as Hu Hm. unfold byOwnerName in Hf.
  rewrite Hu, Hm, Z.eqb_refl, String.eqb_refl in Hf. discriminate.
Qed.

(** X22: through every delivery, no owner has two goals of one name. *)
Theorem run_keeps_names_unique evs w :
  namesUnique w -> namesUnique (world_of (run evs w)).
Proof.
  pose proof (steps_run evs w) as Hs. revert Hs.
  generalize (world_of (run evs w)). intros b Hs.
  unfold namesUnique. induction Hs; cbn [goals]; intros Ha; auto.
  - rewrite map_update_fixed; [exact Ha|].
    intros x _. rewrite stepGoal_user, stepGoal_name. reflexivity.
  - rewrite map_update_fixed; [exact Ha | reflexivity].
  - apply NoDup_map_remove. exact Ha.
  - unfold Coll.save. rewrite List.map_app. cbn [List.map newGoal g_user g_name].
    apply NoDup_snoc; [exact Ha | apply unused_name; assumption].
Qed.

Lemma run_keeps_names_unique_witness :
  namesUnique (world_of (run Sample.sixGoals Sample.empty)).
Proof.
  apply (run_keeps_names_unique Sample.sixGoals Sample.empty).
  constructor.
Defined.

Lemma unknown_sender s us :
  Coll.findOne (byName s) us = None -> ~ In s (List.map u_name us).
Proof.
  intros Hn Hin. apply in_map_iff in Hin. destruct Hin as (u & Hu & Hin).
  pose proof (findOne_none _ _ u Hn Hin) as Hf.
  unfold byName in Hf. rewrite Hu, Z.eqb_refl in Hf. discriminate.
Qed.

(** X23: through every delivery, each sender has at most one user
    document: the lazy creation on first contact never adds a second. *)
Theorem run_keeps_one_user_each evs w :
  oneUserEach w -> oneUserEach (world_of (run evs w)).
Proof.
  pose proof (steps_run evs w) as Hs. revert Hs.
  generalize (world_of (run evs w)). intros b Hs.
  unfold oneUserEach. induction Hs; cbn [users]; intros Ha; auto.
  - rewrite map_update_fixed; [exact Ha|]. intros x _. apply H.
  - unfold Coll.save. rewrite List.map_app. cbn [List.map u_name].
    apply NoDup_snoc; [exact Ha | apply unknown_sender; assumption].
Qed.

Lemma run_keeps_one_user_each_witness :
  oneUserEach (world_of (run Sample.sixGoals Sample.empty)).
Proof.
  apply (run_keeps_one_user_each Sample.sixGoals Sample.empty).
  constructor.
Defined.

(** X24: no delivery removes or renames a user or changes a stored
    finished list: the users a delivery ends with are those it started
    with, in order, with their finished lists as they were, followed by
    the new senders, whose finished lists are empty. *)
Theorem run_never_writes_finished evs w :
  exists added,
    finishedBySender (world_of (run evs w))
    = (finishedBySender w ++ List.map (fun s => (s, [])) added)%list.
Proof.
  pose proof (steps_run evs w) as Hs. revert Hs.
  generalize (world_of (run evs w)). intros b Hs.
  unfold finishedBySender. induction Hs; cbn [users].
  - exists []. rewrite List.app_nil_r. reflexivity.
  - destruct IHHs1 as [l1 H1]. destruct IHHs2 as [l2 H2].
    exists (l1 ++ l2)%list.
    rewrite H2, H1, List.map_app, List.app_assoc. reflexivity.
  - exists []. rewrite List.app_nil_r. reflexivity.
  - exists []. rewrite List.app_nil_r. apply map_update_fixed.
    intros x _. destruct (H x) as (_ & Hn & Hf). rewrite Hn, Hf. reflexivity.
  - exists [senderID]. unfold Coll.save. rewrite List.map_app. reflexivity.
  - exists []. rewrite List.app_nil_r. reflexivity.
  - exists []. rewrite List.app_nil_r. reflexivity.
  - exists []. rewrite List.app_nil_r. reflexivity.
  - exists []. rewrite List.app_nil_r. reflexivity.
Qed.

(** ** Listing goals *)

(** X25: for a sender without goals [getList] sends the "No goals yet"
    text and the home menu and stores nothing. *)
Theorem getList_no_goals env senderID type w :
  Coll.find (byOwner senderID) (goals w) = [] ->
  getList env senderID type w =
  Done tt (mkWorld (users w) (goals w)
             (sent w ++ [TextMessage senderID
                           "No goals yet, start one from home!";
                         Home senderID])).
Proof.
  intros He. unfold getList, bind, Goals.find, sendTextMessage, sendHome,
    callSendAPI.
  rewrite He. cbn [List.length Nat.eqb users goals sent].
  rewrite <- app_assoc. reflexivity.
Qed.

Lemma getList_no_goals_witness :
  getList (Sample.onThu "") 8 "view" (Sample.one "null" 2 5) =
  Done tt (mkWorld [Sample.owner "null" 1 []] [Sample.running 2 5]
             [TextMessage 8 "No goals yet, start one from home!"; Home 8]).
Proof.
  apply (getList_no_goals (Sample.onThu "") 8 "view" (Sample.one "null" 2 5)).
  reflexivity.
Defined.

Lemma findOne_byId_in id gs :
  In id (List.map g_id gs) -> exists g, Coll.findOne (byId id) gs = Some g.
Proof.
  intros Hin. destruct (Coll.findOne (byId id) gs) as [g|] eqn:Hf;
    [exists g; reflexivity|].
  apply in_map_iff in Hin. destruct Hin as (g & Hg & Hin).
  pose proof (findOne_none _ _ g Hf Hin) as Hb.
  unfold byId in Hb. rewrite Hg, String.eqb_refl in Hb. discriminate.
Qed.

Lemma ids_update env type id gs :
  List.map g_id (Coll.update (byId id) (stepGoal env type) gs)
  = List.map g_id gs.
Proof. apply map_update_fixed. intros x _. apply stepGoal_id. Qed.

Lemma ids_viewPass env ids : forall gs,
  List.map g_id (viewPass env ids gs) = List.map g_id gs.
Proof.
  unfold viewPass. induction ids as [|i ids IH]; intros gs; simpl;
    [reflexivity|].
  rewrite IH. apply ids_update.
Qed.

(** The loop of [getList]: each goal of the result is found, so each
    run of the engine completes. *)
Lemma forEach_view env senderID : forall result w,
  (forall g, In g result -> In (g_id g) (List.map g_id (goals w))) ->
  forEach result (fun g => streakProcess env (g_id g) "view" senderID) w =
  Done tt (mkWorld (users w)
                   (viewPass env (List.map g_id result) (goals w))
                   (sent w)).
Proof.
  induction result as [|g result IH]; intros w Hin.
  - destruct w; reflexivity.
  - cbn [forEach]. unfold bind.
    destruct (findOne_byId_in (g_id g) (goals w) (Hin g (or_introl eq_refl)))
      as [g0 Hg0].
    rewrite (streakProcess_update env (g_id g) "view" senderID w g0 Hg0).
    rewrite IH.
    + reflexivity.
    + intros x Hx. cbn [goals]. rewrite ids_update. apply Hin. right. exact Hx.
Qed.

(** The goals and users [getList] leaves, whether or not the reply
    that follows the view pass can be built. *)
Lemma getList_world env senderID type w :
  exists replies,
    world_of (getList env senderID type w) =
    mkWorld (users w)
            (viewPass env
               (List.map g_id (Coll.find (byOwner senderID) (goals w)))
               (goals w))
            replies.
Proof.
  unfold getList. unfold bind at 1. unfold Goals.find at 1.
  destruct (List.length (Coll.find (byOwner senderID) (goals w)) =? 0)%nat
    eqn:El.
  - apply Nat.eqb_eq in El. apply List.length_zero_iff_nil in El.
    rewrite El. eexists. reflexivity.
  - unfold bind at 1. rewrite forEach_view.
    + unfold bind at 1. unfold Goals.find at 1. cbn [users goals sent].
      match goal with
      | |- context [(List.length ?r =? 0)%nat] =>
          destruct (List.length r =? 0)%nat
      end; [eexists; reflexivity|].
      unfold sendList, bind, User.findOne, deref, ret, throw, callSendAPI.
      cbn [users goals sent].
      destruct (String.eqb type "view");
        [destruct (Coll.findOne (byName senderID) (users w))|];
        eexists; reflexivity.
    + intros g Hg. apply in_map. unfold Coll.find in Hg.
      apply filter_In in Hg. tauto.
Qed.

Lemma getList_store env senderID type w :
  users (world_of (getList env senderID type w)) = users w /\
  goals (world_of (getList env senderID type w)) =
  viewPass env (List.map g_id (Coll.find (byOwner senderID) (goals w)))
           (goals w).
Proof.
  destruct (getList_world env senderID type w) as [ss H]. rewrite H.
  split; reflexivity.
Qed.

Lemma decayed_refl g : decayed g g.
Proof. repeat split. left. reflexivity. Qed.

Lemma decayed_trans a b c : decayed a b -> decayed b c -> decayed a c.
Proof.
  intros (K1 & C1 & S1) (K2 & C2 & S2). repeat split; try congruence.
  destruct S2 as [S2 | S2]; [rewrite S2; exact S1 | right; exact S2].
Qed.

Lemma decayed_step env g : decayed g (stepGoal env "view" g).
Proof.
  split; [apply stepGoal_kept|]. split; [apply stepGoal_view_credited|].
  unfold stepGoal. simpl.
  destruct (streak_cases env g) as [E | [E | E]]; rewrite E; simpl;
    [left | left | right]; reflexivity.
Qed.

Lemma Forall2_refl {A} (R : A -> A -> Prop) l :
  (forall x, R x x) -> Forall2 R l l.
Proof. intros Hr. induction l; constructor; auto. Qed.

Lemma Forall2_trans {A} (R : A -> A -> Prop) :
  (forall a b c, R a b -> R b c -> R a c) ->
  forall l1 l2 l3, Forall2 R l1 l2 -> Forall2 R l2 l3 -> Forall2 R l1 l3.
Proof.
  intros Ht l1 l2 l3 H12. revert l3.
  induction H12; intros l3 H23; inversion H23; subst; constructor; eauto.
Qed.

Lemma decayed_update env id gs :
  Forall2 decayed gs (Coll.update (byId id) (stepGoal env "view") gs).
Proof.
  induction gs as [|g gs IH]; simpl; [constructor|].
  destruct (byId id g); constructor;
    first [ apply decayed_step | apply decayed_refl
          | apply Forall2_refl; apply decayed_refl | exact IH ].
Qed.

Lemma decayed_viewPass env ids : forall gs,
  Forall2 decayed gs (viewPass env ids gs).
Proof.
  unfold viewPass. induction ids as [|i ids IH]; intros gs; simpl.
  - apply Forall2_refl. apply decayed_refl.
  - eapply Forall2_trans; [apply decayed_trans | apply decayed_update | apply IH].
Qed.

(** X26: listing goals only lets streaks decay: after [getList], for any
    sender, kind of list and store, the users are as before and the goals
    are the same documents in the same order, each with its id, owner,
    name, log, total, lastUpdate and lastDay kept and its streak either
    kept or set to 0. *)
Theorem getList_only_decays env senderID type w :
  users (world_of (getList env senderID type w)) = users w /\
  Forall2 decayed (goals w) (goals (world_of (getList env senderID type w))).
Proof.
  destruct (getList_store env senderID type w) as [Hu Hg].
  split; [exact Hu|]. rewrite Hg. apply decayed_viewPass.
Qed.

Lemma settled_fixed env gs id :
  settled env gs id -> Coll.update (byId id) (stepGoal env "view") gs = gs.
Proof.
  intros Hs. destruct (Coll.findOne (byId id) gs) as [g|] eqn:Hf.
  - rewrite <- (update_same (byId id) gs) at 2.
    apply update_ext with (a := g); [exact Hf | apply Hs; exact Hf].
  - apply update_absent. exact Hf.
Qed.

Lemma findOne_elsewhere {A} (p q : A -> bool) (f : A -> A) (c : list A) :
  (forall x, q (f x) = q x) ->
  (forall x, p x = true -> q x = false) ->
  Coll.findOne q (Coll.update p f c) = Coll.findOne q c.
Proof.
  intros Hq Hpq. induction c as [|x c IH]; simpl; [reflexivity|].
  destruct (p x) eqn:E; simpl.
  - rewrite Hq, (Hpq x E). reflexivity.
  - rewrite IH. reflexivity.
Qed.

Lemma settled_after env gs id :
  settled env (Coll.update (byId id) (stepGoal env "view") gs) id.
Proof.
  intros g Hg.
  rewrite findOne_update in Hg by (intros x Hx; apply stepGoal_byId; exact Hx).
  destruct (Coll.findOne (byId id) gs) as [g0|]; [|discriminate].
  injection Hg as <-. apply stepGoal_view_again.
Qed.

Lemma settled_kept env gs id j :
  settled env gs id ->
  settled env (Coll.update (byId j) (stepGoal env "view") gs) id.
Proof.
  intros Hs. destruct (string_dec j id) as [-> | Hne];
    [apply settled_after|].
  intros g Hg. apply Hs. rewrite <- Hg. symmetry.
  apply findOne_elsewhere.
  - intros x. unfold byId. rewrite stepGoal_id. reflexivity.
  - intros x Hx. apply (byId_apart id j x); [congruence | exact Hx].
Qed.

Lemma settled_viewPass env ids : forall gs id,
  settled env gs id \/ In id ids -> settled env (viewPass env ids gs) id.
Proof.
  unfold viewPass. induction ids as [|j ids IH]; intros gs id H; simpl.
  - destruct H as [H | []]. exact H.
  - apply IH. destruct H as [H | [-> | H]].
    + left. apply settled_kept. exact H.
    + left. apply settled_after.
    + right. exact H.
Qed.

Lemma viewPass_settled env ids : forall gs,
  (forall id, In id ids -> settled env gs id) -> viewPass env ids gs = gs.
Proof.
  unfold viewPass. induction ids as [|j ids IH]; intros gs H; simpl;
    [reflexivity|].
  rewrite (settled_fixed env gs j) by (apply H; left; reflexivity).
  apply IH. intros id Hid. apply H. right. exact Hid.
Qed.

Lemma owned_ids_update env s j gs :
  List.map g_id (Coll.find (byOwner s)
                   (Coll.update (byId j) (stepGoal env "view") gs))
  = List.map g_id (Coll.find (byOwner s) gs).
Proof.
  unfold Coll.find. induction gs as [|g gs IH]; simpl; [reflexivity|].
  destruct (byId j g); simpl.
  - unfold byOwner at 1. rewrite stepGoal_user. fold (byOwner s g).
    destruct (byOwner s g); simpl; [rewrite stepGoal_id|]; reflexivity.
  - destruct (byOwner s g); simpl; rewrite IH; reflexivity.
Qed.

Lemma owned_ids_viewPass env s ids : forall gs,
  List.map g_id (Coll.find (byOwner s) (viewPass env ids gs))
  = List.map g_id (Coll.find (byOwner s) gs).
Proof.
  unfold viewPass. induction ids as [|j ids IH]; intros gs; simpl;
    [reflexivity|].
  rewrite IH. apply owned_ids_update.
Qed.

(** X27: listing goals twice with the same clock leaves the goals
    exactly as listing them once: a streak that decayed is not lowered
    or reset again, and nothing is credited. *)
Theorem getList_twice env senderID type type' w :
  goals (world_of (getList env senderID type'
                     (world_of (getList env senderID type w))))
  = goals (world_of (getList env senderID type w)).
Proof.
  destruct (getList_store env senderID type'
              (world_of (getList env senderID type w))) as [_ H2].
  rewrite H2. clear H2.
  destruct (getList_store env senderID type w) as [_ H1]. rewrite H1.
  rewrite owned_ids_viewPass.
  apply viewPass_settled. intros id Hid.
  apply settled_viewPass. right. exact Hid.
Qed.

(** ** First contact, naming and a lost goal *)

(** X28: the first text of an unknown sender creates the default user
    document and is answered with the welcome text and the home menu;
    what the text says is not looked at. *)
Theorem first_text_only_creates_user env senderID c t w :
  userOf senderID w = None ->
  handle env (MessageEvent senderID
                (mkMessage false None (Some (String.String c t)))) w =
  Done tt (mkWorld
             (users w ++ [mkUser (freshId env) senderID "null" 0 [] 0 None])
             (goals w)
             (sent w ++ [TextMessage senderID "Welcome, here is the home screen:";
                         Home senderID])).
Proof.
  intros Hu. unfold handle, receivedMessage, textMessage, welcome, newUser,
    bind, User.findOne, User.save, Coll.save, sendTextMessage, sendHome,
    callSendAPI, ret.
  unfold userOf in Hu. rewrite Hu. cbn [users goals sent is_echo quick_reply text].
  rewrite <- app_assoc. reflexivity.
Qed.

Lemma first_text_only_creates_user_witness :
  handle (Sample.onWed Sample.u1) (Sample.says "image") Sample.empty =
  Done tt (mkWorld [mkUser Sample.u1 Sample.sender "null" 0 [] 0 None] []
             [TextMessage Sample.sender "Welcome, here is the home screen:";
              Home Sample.sender]).
Proof.
  apply (first_text_only_creates_user (Sample.onWed Sample.u1) Sample.sender
           "i"%char "mage" Sample.empty).
  reflexivity.
Defined.

Lemma findOne_saved {A} (p : A -> bool) (x : A) (c : list A) :
  p x = true -> exists y, Coll.findOne p (Coll.save x c) = Some y.
Proof.
  intros Hx. unfold Coll.save. induction c as [|z c IH]; simpl.
  - rewrite Hx. exists x. reflexivity.
  - destruct (p z); [exists z; reflexivity | exact IH].
Qed.

(** X29: an ASCII text whose capitalised form has at most 100
    characters and is not a name the owner has used creates one goal of
    that name, appended to the store with streak 0, total 0 and an empty
    log, returns the user to the idle status and raises the count by
    one; after that, any text with the same capitalised form, an ASCII
    text too, stores no further goal. *)
Theorem nameGoal_creates_once env senderID t w u :
  userOf senderID w = Some u ->
  JS.isAscii t = true ->
  (JS.length (capitalize t) <= 100)%nat ->
  Coll.findOne (byOwnerName senderID (capitalize t)) (goals w) = None ->
  exists w1,
    nameGoal env senderID t w = Done tt w1 /\
    goals w1 = (goals w ++ [mkGoal (freshId env) senderID (capitalize t) 0 []
                              (inject_Z (getTime (now env)) / 1000)%Q
                              (getDay (now env)) 0])%list /\
    option_map u_status (userOf senderID w1) = Some "null" /\
    option_map u_numGoals (userOf senderID w1) = Some (u_numGoals u + 1) /\
    forall env' t',
      capitalize t' = capitalize t ->
      goals (world_of (nameGoal env' senderID t' w1)) = goals w1.
Proof.
  intros Hu Hascii Hlen Hfree. apply Nat.ltb_ge in Hlen.
  destruct w as [us gs ss]. unfold userOf in Hu. cbn [users goals] in *.
  eexists. split.
  - unfold nameGoal. cbv zeta. rewrite Hlen.
    unfold bind, Goals.findOneNamed, Goals.save, User.findOne, User.update,
      deref, ret, sendTextMessage, sendHome, callSendAPI.
    cbn [users goals sent]. rewrite Hfree. cbn [users goals sent].
    rewrite Hu. cbn [users goals sent]. reflexivity.
  - cbn [users goals sent]. split; [reflexivity|]. split; [|split].
    + unfold userOf. cbn [users].
      rewrite !findOne_update by (intros x Hx; exact Hx).
      rewrite Hu. reflexivity.
    + unfold userOf. cbn [users].
      rewrite !findOne_update by (intros x Hx; exact Hx).
      rewrite Hu. reflexivity.
    + intros env' t' Ht. unfold nameGoal. cbv zeta. rewrite Ht, Hlen.
      unfold bind at 1. unfold Goals.findOneNamed at 1. cbn [goals].
      destruct (findOne_saved (byOwnerName senderID (capitalize t))
                  (newGoal env senderID (capitalize t)) gs) as [y Hy].
      { unfold byOwnerName. cbn [newGoal g_user g_name].
        rewrite Z.eqb_refl, String.eqb_refl. reflexivity. }
      rewrite Hy.
      unfold bind, User.findOne, User.update, deref, ret, throw,
        sendTextMessage, callSendAPI.
      cbn [users goals sent].
      match goal with
      | |- context [Coll.findOne (byName senderID) ?l] =>
          destruct (Coll.findOne (byName senderID) l)
      end; reflexivity.
Qed.

Lemma nameGoal_creates_once_witness :
  exists w1,
    nameGoal (Sample.onThu Sample.g2) Sample.sender "read" Sample.naming
      = Done tt w1 /\
    goals w1 = [Sample.running 2 5;
                mkGoal Sample.g2 Sample.sender "Read" 0 []
                  (inject_Z (getTime Sample.thu) / 1000)%Q 4 0] /\
    option_map u_status (userOf Sample.sender w1) = Some "null" /\
    option_map u_numGoals (userOf Sample.sender w1) = Some 2 /\
    forall env' t',
      capitalize t' = "Read" ->
      goals (world_of (nameGoal env' Sample.sender t' w1)) = goals w1.
Proof.
  apply (nameGoal_creates_once (Sample.onThu Sample.g2) Sample.sender "read"
           Sample.naming (Sample.owner "naming_goal" 1 [])).
  - reflexivity.
  - reflexivity.
  - vm_compute. lia.
  - reflexivity.
Defined.

(** X30: a user in the logging state of a goal the store no longer
    holds stays there: a text of at most 96 units raises a [TypeError]
    and nothing is sent or stored, so the status is not reset and the
    next text meets the same error. *)
Theorem logging_lost_goal_stuck env senderID w u id c t :
  userOf senderID w = Some u ->
  u_status u = ("logging_goal" ++ id)%string ->
  Coll.findOne (byId id) (goals w) = None ->
  (String.length (JS.toLowerCase (String.String c t)) <= 96)%nat ->
  handle env (MessageEvent senderID
                (mkMessage false None (Some (String.String c t)))) w
  = Abort TypeError w.
Proof.
  intros Hu Hst Hg Hlen.
  pose proof (length_units (JS.toLowerCase (String.String c t))) as Hunits.
  assert (Hlen' : (96 <? JS.length (JS.toLowerCase (String.String c t)))%nat
                  = false) by (apply Nat.ltb_ge; lia).
  clear Hlen Hunits. rename Hlen' into Hlen.
  unfold handle, receivedMessage. unfold bind at 1. unfold User.findOne at 1.
  unfold userOf in Hu. rewrite Hu.
  cbv beta iota. cbn [is_echo quick_reply text].
  unfold textMessage. rewrite Hst.
  change (String.eqb ("logging_goal" ++ id) "naming_goal") with false.
  rewrite head_logging.
  change (String.eqb "logging_goal" "logging_goal") with true.
  cbv iota. rewrite rest_logging. unfold bind at 1.
  unfold logGoal. rewrite Hlen.
  unfold bind, Goals.findOne, deref, throw. rewrite Hg. reflexivity.
Qed.

Lemma logging_lost_goal_stuck_witness :
  handle (Sample.onThu "") (Sample.says "did 5k")
         (mkWorld [Sample.owner ("logging_goal" ++ Sample.g1) 0 []] [] [])
  = Abort TypeError
      (mkWorld [Sample.owner ("logging_goal" ++ Sample.g1) 0 []] [] []).
Proof.
  apply (logging_lost_goal_stuck (Sample.onThu "") Sample.sender
           (mkWorld [Sample.owner ("logging_goal" ++ Sample.g1) 0 []] [] [])
           (Sample.owner ("logging_goal" ++ Sample.g1) 0 []) Sample.g1
           "d"%char "id 5k").
  - reflexivity.
  - reflexivity.
  - reflexivity.
  - vm_compute. lia.
Defined.
